(** * GreenPulse: the health scoring and simulation engine

    A shallow embedding of [utils/model_utils.py], [utils/sensor_simulator.py]
    and [utils/data_generator.py], and the properties of the engine that the
    specification states about them.

    Conventions of the embedding.
    - A Python [float] is a real number ([R]): rounding, infinities and NaN
      are outside the model.
    - A Python exception is a value of [exn]; code that may raise returns a
      [result].  Only subclasses of [Exception] are modelled, which is what
      [except Exception] catches.
    - The process-wide state (numpy's global generator, the clock, the model
      file on disk) is a [world], threaded through the stateful code.
    - numpy's generator and scikit-learn's tree fitting are not part of the
      repository: they are parameters of the development. *)

From stdpp Require Import base option list gmap strings pretty.
From Stdlib Require Import Reals Lra Lia ZArith Ascii.

Open Scope R_scope.

(** ** Python prelude *)

Inductive exn : Type :=
  | KeyError (key : string)
  | IndexError
  | AttributeError
  | ValueError
  | OSError
  | UnpicklingError.

Inductive result (A : Type) : Type :=
  | Ret (a : A)
  | Raise (e : exn).
Arguments Ret {A} a.
Arguments Raise {A} e.

#[global] Instance result_ret : MRet result := fun A a => Ret a.
#[global] Instance result_bind : MBind result := fun A B f m =>
  match m with
  | Ret a => f a
  | Raise e => Raise e
  end.

(** [try: body except Exception: handler] *)
Definition try_except {A} (body : result A) (handler : exn -> result A) : result A :=
  match body with
  | Ret a => Ret a
  | Raise e => handler e
  end.

(** [max(a, b)] keeps [a] unless [b > a]; [min(a, b)] keeps [a] unless [b < a]. *)
Definition py_max (a b : R) : R := if Rlt_dec a b then b else a.
Definition py_min (a b : R) : R := if Rlt_dec b a then b else a.

Definition Rleb (x y : R) : bool := if Rle_dec x y then true else false.
Definition Rltb (x y : R) : bool := if Rlt_dec x y then true else false.

(** [l[i]] on a list or an array: a negative index counts from the end, an
    index out of range raises [IndexError]. *)
Definition py_index {A} (l : list A) (i : Z) : result A :=
  let n := Z.of_nat (length l) in
  let j := if (i <? 0)%Z then (i + n)%Z else i in
  if (j <? 0)%Z then Raise IndexError
  else match l !! Z.to_nat j with
       | Some x => Ret x
       | None => Raise IndexError
       end.

(** [d[k]] on a dict. *)
Definition py_getitem {V} (d : gmap string V) (k : string) : result V :=
  match d !! k with
  | Some v => Ret v
  | None => Raise (KeyError k)
  end.

(** [np.max(a)] on a one-dimensional array. *)
Definition np_max (a : list R) : result R :=
  match a with
  | [] => Raise ValueError
  | x :: xs => Ret (fold_left Rmax xs x)
  end.

(** [f"{x:.0f}"]: the integer nearest to [x], ties to the even one, in
    decimal; the sign is that of [x]. *)
Definition round_half_even (x : R) : Z :=
  let n := Int_part x in
  let f := x - IZR n in
  if Rlt_dec f (1 / 2) then n
  else if Rlt_dec (1 / 2) f then (n + 1)%Z
  else if Z.even n then n else (n + 1)%Z.

Definition format_0f (x : R) : string :=
  if Rlt_dec x 0 then "-" +:+ pretty (round_half_even (- x))
  else pretty (round_half_even x).

(** [sub in s] on strings. *)
Definition py_in (sub s : string) : bool :=
  match String.index 0 sub s with
  | Some _ => true
  | None => false
  end.

(** Reading a number back from a line of text: the value of a decimal
    digit, the number that the leading digits of a string write (with a sign
    in front of them), and the number that follows a given prefix. *)
Definition digit_value (c : Ascii.ascii) : option Z :=
  match c with
  | "0"%char => Some 0%Z | "1"%char => Some 1%Z | "2"%char => Some 2%Z
  | "3"%char => Some 3%Z | "4"%char => Some 4%Z | "5"%char => Some 5%Z
  | "6"%char => Some 6%Z | "7"%char => Some 7%Z | "8"%char => Some 8%Z
  | "9"%char => Some 9%Z
  | _ => None
  end.

Fixpoint read_digits (s : string) (acc : option Z) : option Z :=
  match s with
  | EmptyString => acc
  | String c rest =>
      match digit_value c with
      | Some d => read_digits rest (Some (10 * default 0 acc + d)%Z)
      | None => acc
      end
  end.

Definition leading_int (s : string) : option Z :=
  match read_digits s None with
  | Some z => Some z
  | None =>
      match s with
      | String "-"%char rest => Z.opp <$> read_digits rest None
      | _ => None
      end
  end.

Fixpoint strip_prefix (prefix s : string) : option string :=
  match prefix, s with
  | EmptyString, _ => Some s
  | String a prefix, String b s => if Ascii.eqb a b then strip_prefix prefix s else None
  | String _ _, EmptyString => None
  end.

Definition number_after (prefix line : string) : option Z :=
  match strip_prefix prefix line with
  | Some rest => leading_int rest
  | None => None
  end.

(** ** utils/model_utils.py: [MossHealthPredictor] *)

(** What the code uses of the model object: [predict] on a batch of rows and,
    when the object has it, [predict_proba]. *)
Record classifier : Type := {
  predict : list (list R) -> result (list Z);
  predict_proba : option (list (list R) -> result (list (list R)))
}.

Record MossHealthPredictor : Type := {
  model : option classifier;
  labels : list string
}.

Definition init_labels : list string :=
  ["Healthy"; "Needs Water"; "Needs Shade"; "Needs Attention"]%string.

(** A predictor as [__init__] sets it up, with [mdl] as its model. *)
Definition predictor_with (mdl : option classifier) : MossHealthPredictor :=
  {| model := mdl; labels := init_labels |}.

(** The class codes of the training labels, as the comments of
    [create_fallback_model] name them. *)
Definition HEALTHY : Z := 0.
Definition NEEDS_WATER : Z := 1.
Definition NEEDS_SHADE : Z := 2.
Definition NEEDS_ATTENTION : Z := 3.

(** The body of the labelling loop of [create_fallback_model]. *)
Definition training_label (h l m : R) : Z :=
  if Rleb 60 h && Rleb h 80 && Rleb 300 l && Rleb l 800 && Rleb 500 m && Rleb m 750
  then 0%Z
  else if Rltb m 400 then 1%Z
  else if Rltb 1000 l || Rltb h 40 then 2%Z
  else 3%Z.

Record ideal : Type := {
  ideal_humidity : R;
  ideal_light : R;
  ideal_moisture : R
}.

Definition ideal_conditions : gmap Z ideal :=
  {[ 0%Z := {| ideal_humidity := 70; ideal_light := 500; ideal_moisture := 650 |};
     1%Z := {| ideal_humidity := 50; ideal_light := 400; ideal_moisture := 300 |};
     2%Z := {| ideal_humidity := 35; ideal_light := 1200; ideal_moisture := 500 |};
     3%Z := {| ideal_humidity := 45; ideal_light := 900; ideal_moisture := 400 |} ]}.

Definition calculate_confidence (humidity light moisture : R) (prediction : Z) : result R :=
  match ideal_conditions !! prediction with
  | None => Raise (KeyError (pretty prediction))
  | Some ideal =>
      let h_diff := Rabs (humidity - ideal_humidity ideal) / 100 in
      let l_diff := Rabs (light - ideal_light ideal) / 1500 in
      let m_diff := Rabs (moisture - ideal_moisture ideal) / 900 in
      let distance := sqrt (h_diff ^ 2 + l_diff ^ 2 + m_diff ^ 2) in
      let confidence := py_max 50 (100 - distance * 200) in
      Ret confidence
  end.

Definition calculate_health_score (humidity light moisture : R) : R :=
  let humidity_score := 1 - Rabs (humidity - 70) / 50 in
  let light_score := 1 - Rabs (light - 500) / 700 in
  let moisture_score := 1 - Rabs (moisture - 650) / 450 in
  let humidity_score := py_max 0 (py_min 1 humidity_score) in
  let light_score := py_max 0 (py_min 1 light_score) in
  let moisture_score := py_max 0 (py_min 1 moisture_score) in
  let health_score :=
    (humidity_score * 0.3 + light_score * 0.3 + moisture_score * 0.4) * 10 in
  py_max 0 (py_min 10 health_score).

(** The [try] block of [predict_health]. *)
Definition predict_health_body (self : MossHealthPredictor)
    (humidity light moisture : R) : result (string * R * R) :=
  let data := [[humidity; light; moisture]] in
  mdl ← match model self with
        | Some c => Ret c
        | None => Raise AttributeError
        end;
  predictions ← predict mdl data;
  prediction ← py_index predictions 0;
  confidence ←
    match predict_proba mdl with
    | Some proba =>
        rows ← proba data;
        probabilities ← py_index rows 0;
        top ← np_max probabilities;
        Ret (top * 100)
    | None => calculate_confidence humidity light moisture prediction
    end;
  let health_score := calculate_health_score humidity light moisture in
  label ← py_index (labels self) prediction;
  Ret (label, confidence, health_score).

Definition sentinel : string * R * R := ("Unknown"%string, 0, 0).

Definition predict_health (self : MossHealthPredictor)
    (humidity light moisture : R) : result (string * R * R) :=
  try_except (predict_health_body self humidity light moisture)
             (fun _ => Ret sentinel).

(** Of [sensor_data] the code reads the entries "moisture" and "light" only:
    the dict is modelled by its numeric entries. *)
Definition get_recommendations (prediction : string) (sensor_data : gmap string R)
    : result (list string) :=
  if decide (prediction = "Needs Water"%string) then
    moisture ← py_getitem sensor_data "moisture";
    Ret [ "Activate automatic misting system";
          "Check water reservoir levels";
          "Verify sprinkler system functionality";
          "Current moisture: " +:+ format_0f moisture +:+ " (target: 600-750)" ]%string
  else if decide (prediction = "Needs Shade"%string) then
    light ← py_getitem sensor_data "light";
    Ret [ "Adjust building ventilation";
          "Consider temporary shading solutions";
          "Check air conditioning efficiency";
          "Current light: " +:+ format_0f light +:+ " lux (optimal: 300-800)" ]%string
  else if decide (prediction = "Needs Attention"%string) then
    Ret [ "Schedule maintenance inspection";
          "Check all sensor calibrations";
          "Examine moss growth patterns";
          "Review environmental control systems" ]%string
  else
    Ret [ "Continue current maintenance schedule";
          "Monitor sensor readings";
          "System operating optimally" ]%string.

(** *** The formulas as the specification words them *)

Definition clamp (lo hi x : R) : R := Rmax lo (Rmin hi x).
Definition clamp01 (x : R) : R := clamp 0 1 x.

Definition spec_score (humidity light moisture : R) : R :=
  clamp 0 10
    (10 * (0.3 * clamp01 (1 - Rabs (humidity - 70) / 50)
         + 0.3 * clamp01 (1 - Rabs (light - 500) / 700)
         + 0.4 * clamp01 (1 - Rabs (moisture - 650) / 450))).

(** Euclidean distance in the normalised space (humidity/100, light/1500,
    moisture/900). *)
Definition spec_distance (humidity light moisture : R) (i : ideal) : R :=
  sqrt ((humidity / 100 - ideal_humidity i / 100) ^ 2
      + (light / 1500 - ideal_light i / 1500) ^ 2
      + (moisture / 900 - ideal_moisture i / 900) ^ 2).

Definition spec_confidence (humidity light moisture : R) (i : ideal) : R :=
  clamp 50 100 (100 - spec_distance humidity light moisture i * 200).

Definition healthy_range (h l m : R) : Prop :=
  60 <= h <= 80 /\ 300 <= l <= 800 /\ 500 <= m <= 750.

(** What the claim says of one label: its class code carries the name, the
    confidence is the clamped formula at the label's ideal point, and the
    value lies in [50,100]. *)
Definition confidence_agrees (h l m : R) (code : Z) (name : string) (point : ideal)
    : Prop :=
  py_index init_labels code = Ret name
  /\ calculate_confidence h l m code = Ret (spec_confidence h l m point)
  /\ 50 <= spec_confidence h l m point <= 100.

(** A model that answers the same class and the same probabilities on every
    input. *)
Definition constant_model (class : Z) (proba : list R) : classifier :=
  {| predict := fun _ => Ret [class];
     predict_proba := Some (fun _ => Ret [proba]) |}.

(** A concrete instance of what the development takes as parameters, for the
    examples: a generator without state whose every draw is 0, and a fit
    that ignores its data. *)
Definition zero_seed (seed : Z) : unit := tt.
Definition zero_draw (g : unit) : R * unit := (0, g).
Definition constant_fit (X : list (list R)) (y : list Z) : classifier :=
  constant_model 0 [1].
(** An integer draw that always gives [low]. *)
Definition low_randint (low high : Z) (g : unit) : Z * unit := (low, g).
(** A loop whose every iteration takes eleven hours. *)
Definition eleven_hours (day : Z) : Z := 39600000000%Z.

(** ** The process-wide state *)

(** A state monad with exceptions: a mutation made before an exception is
    raised stays made. *)
Definition ST (S A : Type) : Type := S -> result A * S.

#[global] Instance ST_ret {S} : MRet (ST S) := fun A a s => (Ret a, s).
#[global] Instance ST_bind {S} : MBind (ST S) := fun A B f m s =>
  match m s with
  | (Ret a, s') => f a s'
  | (Raise e, s') => (Raise e, s')
  end.

Definition lift {S A} (r : result A) : ST S A := fun s => (r, s).

Definition try_exceptS {S A} (body : ST S A) (handler : exn -> ST S A) : ST S A :=
  fun s =>
    match body s with
    | (Ret a, s') => (Ret a, s')
    | (Raise e, s') => handler e s'
    end.

(** A naive [datetime] is a count of microseconds. *)
Definition datetime : Type := Z.
Definition timedelta_hours (h : Z) : Z := (h * 3600000000)%Z.
Definition timedelta_minutes (m : Z) : Z := (m * 60000000)%Z.
Definition hour (t : datetime) : Z := ((t / 3600000000) mod 24)%Z.

(** [pd.date_range(start, end, freq)]: [start], [start + freq], ... while
    not after [end]. *)
Definition pd_date_range (start end_ freq : Z) : list datetime :=
  if (end_ <? start)%Z then []
  else map (fun k : nat => (start + Z.of_nat k * freq)%Z)
           (seq 0 (S (Z.to_nat ((end_ - start) / freq)))).

(** The file [moss_health_model.pkl]. *)
Inductive model_file : Type :=
  | FileMissing
  | FileUnreadable
  | FileCorrupt
  | FilePickled (c : classifier).

Record SensorSimulator : Type := {
  base_values : gmap string R;
  last_update : R
}.

Record location_factor : Type := {
  factor_humidity : R;
  factor_light : R;
  factor_moisture : R
}.

Definition location_factors : gmap string location_factor :=
  {[ "Building A - Lobby"%string :=
       {| factor_humidity := 0; factor_light := 0.8; factor_moisture := 0 |};
     "Building B - Facade"%string :=
       {| factor_humidity := 0.1; factor_light := 1.2; factor_moisture := -0.1 |};
     "Highway Wall - Section 1"%string :=
       {| factor_humidity := -0.1; factor_light := 1.5; factor_moisture := -0.2 |};
     "University Campus - Library"%string :=
       {| factor_humidity := 0.05; factor_light := 0.6; factor_moisture := 0.1 |};
     "Corporate HQ - Conference Room"%string :=
       {| factor_humidity := -0.05; factor_light := 0.7; factor_moisture := 0.05 |} ]}.

Record Reading : Type := {
  reading_humidity : R;
  reading_light : R;
  reading_moisture : R;
  reading_co2 : R;
  reading_temperature : R;
  reading_timestamp : datetime;
  reading_location : string;
  reading_co2_absorption : R
}.

(** A row of the frame that [generate_historical_data] returns. *)
Record HistoricalRow : Type := {
  row_timestamp : datetime;
  row_humidity : R;
  row_light : R;
  row_moisture : R;
  row_co2 : R;
  row_temperature : R
}.

Record HistoricalDataGenerator : Type := {
  hours_back : Z
}.

(** The declared range of each channel. *)
Definition channels_in_bounds (humidity light moisture co2 temperature : R) : Prop :=
  20 <= humidity <= 95 /\ 50 <= light <= 1500 /\ 200 <= moisture <= 900
  /\ 300 <= co2 <= 600 /\ 15 <= temperature <= 35.

Definition reading_in_bounds (r : Reading) : Prop :=
  channels_in_bounds (reading_humidity r) (reading_light r) (reading_moisture r)
                     (reading_co2 r) (reading_temperature r).

Definition row_in_bounds (r : HistoricalRow) : Prop :=
  channels_in_bounds (row_humidity r) (row_light r) (row_moisture r)
                     (row_co2 r) (row_temperature r).

(** [sensor_data] as [get_current_readings] builds it, by its numeric
    entries. *)
Definition reading_dict (r : Reading) : gmap string R :=
  {[ "humidity"%string := reading_humidity r;
     "light"%string := reading_light r;
     "moisture"%string := reading_moisture r;
     "co2"%string := reading_co2 r;
     "temperature"%string := reading_temperature r;
     "co2_absorption"%string := reading_co2_absorption r ]}.

(** What [simulate_sensor_failure] returns: [None] or [True]. *)
Inductive sensor_status : Type :=
  | SensorFailure
  | SensorOk.

(** A row of the frame that [generate_weekly_summary] returns; a [date] is a
    count of days. *)
Record WeeklyRow : Type := {
  weekly_date : Z;
  avg_humidity : R;
  avg_light : R;
  avg_moisture : R;
  health_events : Z
}.

Definition timedelta_days (d : Z) : Z := (d * 86400000000)%Z.
Definition date (t : datetime) : Z := (t / 86400000000)%Z.

(** The instants that [pd.Timestamp] can hold, in microseconds from
    1970-01-01 00:00: they are instants of [datetime] too. *)
Definition timestamp_in_range (t : datetime) : Prop :=
  (-9223372036854775 <= t <= 9223372036854775)%Z.

(** *** app.py *)

(** [s.replace(old, new)] for one-character [old] and [new]. *)
Fixpoint py_replace_char (old new : Ascii.ascii) (s : string) : string :=
  match s with
  | EmptyString => EmptyString
  | String c rest =>
      String (if Ascii.eqb c old then new else c) (py_replace_char old new rest)
  end.

(** The name of the exported file. *)
Definition export_file_name (selected_location : string) : string :=
  ("moss_data_" +:+ py_replace_char " "%char "_"%char selected_location +:+ ".csv")%string.

(** The three status lines of the automated maintenance section. *)
Definition water_status (prediction : string) : string :=
  if decide (prediction = "Needs Water"%string) then "Active"%string
  else "Standby"%string.

Definition climate_status (prediction : string) : string :=
  if decide (prediction = "Needs Shade"%string) then "Active"%string
  else "Normal"%string.

Definition alert_status (prediction : string) : string :=
  if decide (prediction = "Needs Attention"%string) then "Alert"%string
  else "Normal"%string.

Section Engine.

(** The state of numpy's global generator, with [np.random.seed] and the two
    primitive draws: a standard normal variate, and a uniform one in [0,1). *)
Variable bitgen : Type.
Variable np_seed : Z -> bitgen.
Variable np_standard_normal : bitgen -> R * bitgen.
Variable np_random_sample : bitgen -> R * bitgen.

(** [DecisionTreeClassifier(random_state=42, max_depth=10).fit(X, y)] *)
Variable tree_fit : list (list R) -> list Z -> classifier.

(** [np.random.randint(low, high)] on the generator. *)
Variable np_randint : Z -> Z -> bitgen -> Z * bitgen.

(** The time that passes in the loop of [generate_weekly_summary] from the
    clock read of the iteration [day] to the next one. *)
Variable loop_time : Z -> Z.

Record world : Type := {
  np_random : bitgen;
  clock : datetime;
  model_pkl : model_file;
  disk_writable : bool
}.

Definition set_np_random (g : bitgen) (w : world) : world :=
  {| np_random := g; clock := clock w;
     model_pkl := model_pkl w; disk_writable := disk_writable w |}.

Definition set_model_pkl (f : model_file) (w : world) : world :=
  {| np_random := np_random w; clock := clock w;
     model_pkl := f; disk_writable := disk_writable w |}.

Definition M : Type -> Type := ST world.

Definition datetime_now : M datetime := fun w => (Ret (clock w), w).

(** [time.time()]: seconds, as a float. *)
Definition time_time : M R := fun w => (Ret (IZR (clock w) / 1000000), w).

Definition np_random_seed (seed : Z) : M unit :=
  fun w => (Ret tt, set_np_random (np_seed seed) w).

(** [np.random.normal(loc, scale)] *)
Definition np_random_normal (loc scale : R) : M R := fun w =>
  let '(z, g) := np_standard_normal (np_random w) in
  (Ret (loc + scale * z), set_np_random g w).

(** [np.random.uniform(low, high)] *)
Definition np_random_uniform (low high : R) : M R := fun w =>
  let '(u, g) := np_random_sample (np_random w) in
  (Ret (low + (high - low) * u), set_np_random g w).

(** [np.random.uniform(low, high, size)] *)
Fixpoint np_random_uniform_n (low high : R) (size : nat) : M (list R) :=
  match size with
  | O => mret []
  | S n =>
      x ← np_random_uniform low high;
      xs ← np_random_uniform_n low high n;
      mret (x :: xs)
  end.

Definition os_path_exists : M bool := fun w =>
  (Ret match model_pkl w with FileMissing => false | _ => true end, w).

(** [with open(model_path, "rb") as file: pickle.load(file)] *)
Definition pickle_load : M classifier := fun w =>
  match model_pkl w with
  | FilePickled c => (Ret c, w)
  | FileCorrupt => (Raise UnpicklingError, w)
  | FileMissing | FileUnreadable => (Raise OSError, w)
  end.

(** [with open("moss_health_model.pkl", "wb") as file: pickle.dump(c, file)] *)
Definition pickle_dump (c : classifier) : M unit := fun w =>
  if disk_writable w then (Ret tt, set_model_pkl (FilePickled c) w)
  else (Raise OSError, w).

(** *** utils/sensor_simulator.py *)

Definition init_base_values : gmap string R :=
  {[ "humidity"%string := 65; "light"%string := 500; "moisture"%string := 600;
     "co2"%string := 400; "temperature"%string := 22 ]}.

Definition SensorSimulator_init : M SensorSimulator :=
  now ← time_time;
  mret {| base_values := init_base_values; last_update := now |}.

Definition get_current_readings (self : SensorSimulator) (location : string)
    : M Reading :=
  current_time ← datetime_now;
  let time_factor := sin (IZR (hour current_time) * PI / 12) in
  let factor :=
    default {| factor_humidity := 0; factor_light := 1; factor_moisture := 0 |}
            (location_factors !! location) in
  base ← lift (py_getitem (base_values self) "humidity");
  noise ← np_random_normal 0 5;
  let humidity :=
    py_max 20 (py_min 95 (base + noise + time_factor * 10 + factor_humidity factor * 20)) in
  base ← lift (py_getitem (base_values self) "light");
  noise ← np_random_normal 0 50;
  let light :=
    py_max 50 (py_min 1500 (base + noise + time_factor * 300 * factor_light factor)) in
  base ← lift (py_getitem (base_values self) "moisture");
  noise ← np_random_normal 0 30;
  let moisture :=
    py_max 200 (py_min 900 (base + noise + factor_moisture factor * 100)) in
  base ← lift (py_getitem (base_values self) "co2");
  noise ← np_random_normal 0 20;
  let co2 := py_max 300 (py_min 600 (base + noise - time_factor * 50)) in
  base ← lift (py_getitem (base_values self) "temperature");
  noise ← np_random_normal 0 2;
  let temperature := py_max 15 (py_min 35 (base + noise + time_factor * 5)) in
  let moss_efficiency := py_min 1.0 (humidity / 100 * moisture / 700) in
  rate ← np_random_uniform 15 25;
  mret {| reading_humidity := humidity;
          reading_light := light;
          reading_moisture := moisture;
          reading_co2 := co2;
          reading_temperature := temperature;
          reading_timestamp := current_time;
          reading_location := location;
          reading_co2_absorption := moss_efficiency * rate |}.

(** *** utils/data_generator.py *)

Definition HistoricalDataGenerator_init : HistoricalDataGenerator :=
  {| hours_back := 24 |}.

(** The body of the loop of [generate_historical_data]. *)
Definition historical_row (timestamp : datetime) : M HistoricalRow :=
  let hour := hour timestamp in
  let time_factor := sin (IZR hour * PI / 12) in
  noise ← np_random_normal 0 8;
  let humidity := 65 + noise + time_factor * 15 in
  noise ← np_random_normal 0 100;
  let light := 500 + noise + time_factor * 400 in
  noise ← np_random_normal 0 50;
  jitter ← np_random_uniform (-20) 20;
  let moisture := 600 + noise + jitter in
  noise ← np_random_normal 0 30;
  let co2 := 400 + noise - time_factor * 80 in
  noise ← np_random_normal 0 3;
  let temperature := 22 + noise + time_factor * 6 in
  '(moisture, humidity) ←
    (if bool_decide (hour ∈ [6; 18]%Z) then
       boost ← np_random_uniform 50 100;
       let moisture := moisture + boost in
       boost ← np_random_uniform 10 20;
       mret (moisture, humidity + boost)
     else mret (moisture, humidity));
  '(light, temperature) ←
    (if bool_decide (hour ∈ [12; 13; 14]%Z) then
       gain ← np_random_uniform 1.2 1.8;
       let light := light * gain in
       rise ← np_random_uniform 2 5;
       mret (light, temperature + rise)
     else mret (light, temperature));
  let humidity := py_max 20 (py_min 95 humidity) in
  let light := py_max 50 (py_min 1500 light) in
  let moisture := py_max 200 (py_min 900 moisture) in
  let co2 := py_max 300 (py_min 600 co2) in
  let temperature := py_max 15 (py_min 35 temperature) in
  mret {| row_timestamp := timestamp;
          row_humidity := humidity;
          row_light := light;
          row_moisture := moisture;
          row_co2 := co2;
          row_temperature := temperature |}.

Definition generate_historical_data (self : HistoricalDataGenerator)
    : M (list HistoricalRow) :=
  end_time ← datetime_now;
  let start_time := (end_time - timedelta_hours (hours_back self))%Z in
  let timestamps := pd_date_range start_time end_time (timedelta_minutes 15) in
  mapM historical_row timestamps.

(** *** utils/model_utils.py: loading and training *)

(** The predictor object lives next to the world: [self.model] is assigned
    before the model is saved. *)
Definition MP : Type -> Type := ST (MossHealthPredictor * world).

Definition in_world {A} (m : M A) : MP A := fun '(self, w) =>
  let '(r, w') := m w in (r, (self, w')).

Definition set_model (c : classifier) : MP unit := fun '(self, w) =>
  (Ret tt, ({| model := Some c; labels := labels self |}, w)).

Fixpoint zip3 (hs ls ms : list R) : list (R * R * R) :=
  match hs, ls, ms with
  | h :: hs, l :: ls, m :: ms => (h, l, m) :: zip3 hs ls ms
  | _, _, _ => []
  end.

Definition create_fallback_model : MP unit :=
  _ ← in_world (np_random_seed 42);
  let n_samples := 500%nat in
  humidity ← in_world (np_random_uniform_n 20 95 n_samples);
  light ← in_world (np_random_uniform_n 100 1500 n_samples);
  moisture ← in_world (np_random_uniform_n 200 900 n_samples);
  let y := map (fun '(h, l, m) => training_label h l m) (zip3 humidity light moisture) in
  let X := map (fun '(h, l, m) => [h; l; m]) (zip3 humidity light moisture) in
  _ ← set_model (tree_fit X y);
  in_world (pickle_dump (tree_fit X y)).

Definition load_model : MP unit :=
  try_exceptS
    (found ← in_world os_path_exists;
     if negb found then create_fallback_model
     else c ← in_world pickle_load; set_model c)
    (fun _ => create_fallback_model).

(** [MossHealthPredictor()] *)
Definition MossHealthPredictor_init (w : world)
    : result unit * (MossHealthPredictor * world) :=
  load_model (predictor_with None, w).

(** Two worlds at the same instant with no model file, one on a disk that
    cannot be written. *)
Definition fresh_world (g : bitgen) : world :=
  {| np_random := g; clock := 0%Z; model_pkl := FileMissing; disk_writable := true |}.

Definition read_only_world (g : bitgen) : world :=
  {| np_random := g; clock := 0%Z; model_pkl := FileMissing; disk_writable := false |}.

(** The series of one day before [now]: 97 rows, the k-th at [now] - 24 h +
    k * 15 min; the first at [now] - 24 h and the last at [now]. *)
Definition day_series (now : datetime) (rows : list HistoricalRow) : Prop :=
  length rows = 97%nat
  /\ map row_timestamp rows
     = map (fun k : nat => (now - timedelta_hours 24 + Z.of_nat k * timedelta_minutes 15)%Z)
           (seq 0 97)
  /\ row_timestamp <$> head rows = Some (now - timedelta_hours 24)%Z
  /\ row_timestamp <$> last rows = Some now.

(** One call of [get_current_readings] right after [np.random.seed(seed)],
    on a simulator built by [__init__] at the time [last]. *)
Definition seeded_sample (seed : Z) (location : string) (last : R) : M Reading :=
  _ ← np_random_seed seed;
  get_current_readings {| base_values := init_base_values; last_update := last |}
                       location.

(** *** The rest of the two generators, and one refresh of the dashboard *)

(** [np.random.random()] *)
Definition np_random_random : M R := fun w =>
  let '(u, g) := np_random_sample (np_random w) in
  (Ret u, set_np_random g w).

(** [np.random.randint(low, high)] *)
Definition np_random_randint (low high : Z) : M Z := fun w =>
  let '(k, g) := np_randint low high (np_random w) in
  (Ret k, set_np_random g w).

Definition simulate_sensor_failure (self : SensorSimulator) (sensor_type : string)
    (probability : R) : M sensor_status :=
  u ← np_random_random;
  if Rltb u probability then mret SensorFailure
  else mret SensorOk.

Definition set_clock (t : datetime) (w : world) : world :=
  {| np_random := np_random w; clock := t;
     model_pkl := model_pkl w; disk_writable := disk_writable w |}.

Definition time_passes (dt : Z) : M unit := fun w =>
  (Ret tt, set_clock (clock w + dt)%Z w).

(** The body of the loop of [generate_weekly_summary]: [datetime.now()] is
    read in every iteration, and the clock moves on before the next one. *)
Definition weekly_row (day : Z) : M WeeklyRow :=
  now ← datetime_now;
  let date_ := (now - timedelta_days day)%Z in
  humidity ← np_random_uniform 60 75;
  light ← np_random_uniform 400 600;
  moisture ← np_random_uniform 550 700;
  events ← np_random_randint 0 3;
  _ ← time_passes (loop_time day);
  mret {| weekly_date := date date_;
          avg_humidity := humidity;
          avg_light := light;
          avg_moisture := moisture;
          health_events := events |}.

(** The time that has passed when the iteration [k] reads the clock. *)
Fixpoint time_before (k : nat) : Z :=
  match k with
  | O => 0%Z
  | S j => (time_before j + loop_time (Z.of_nat j))%Z
  end.

Definition generate_weekly_summary (self : HistoricalDataGenerator)
    : M (list WeeklyRow) :=
  mapM weekly_row (map Z.of_nat (seq 0 7)).

(** One refresh of the dashboard: the reading, its classification and the
    recommendations for it. *)
Definition refresh (sensor_simulator : SensorSimulator)
    (predictor : MossHealthPredictor) (selected_location : string)
    : M (Reading * (string * R * R) * list string) :=
  current_data ← get_current_readings sensor_simulator selected_location;
  outcome ← lift (predict_health predictor (reading_humidity current_data)
                                 (reading_light current_data)
                                 (reading_moisture current_data));
  let '(prediction, confidence, health_score) := outcome in
  recommendations ← lift (get_recommendations prediction (reading_dict current_data));
  mret (current_data, (prediction, confidence, health_score), recommendations).

(** Two worlds with the same clock, the same model file and the same disk. *)
Definition same_disk (w w' : world) : Prop :=
  clock w' = clock w /\ model_pkl w' = model_pkl w
  /\ disk_writable w' = disk_writable w.

(** What numpy promises of the draws: a uniform variate lies in [0,1), an
    integer one in [low, high). *)
Definition sample_in_unit : Prop :=
  forall g, 0 <= fst (np_random_sample g) < 1.

Definition randint_in_range : Prop :=
  forall low high g, (low < high)%Z ->
    (low <= fst (np_randint low high g) < high)%Z.

(** *** Reasoning about the stateful code *)

(** [m] run from [s] returns a value, and the value and the state it leaves
    satisfy [Q]. *)
Definition returns {S A} (m : ST S A) (s : S) (Q : A -> S -> Prop) : Prop :=
  exists a s', m s = (Ret a, s') /\ Q a s'.

(** What [generate_weekly_summary] promises of the row for [day] days before
    [now]. *)
Definition weekly_row_ok (now : datetime) (day : Z) (row : WeeklyRow) : Prop :=
  weekly_date row = (date now - day)%Z
  /\ 60 <= avg_humidity row < 75
  /\ 400 <= avg_light row < 600
  /\ 550 <= avg_moisture row < 700
  /\ (0 <= health_events row < 3)%Z.

(** What one refresh hands to the page. *)
Definition refresh_ok (location : string)
    (out : Reading * (string * R * R) * list string) : Prop :=
  let '(r, (label, confidence, score), recs) := out in
  reading_in_bounds r /\ reading_location r = location
  /\ (label ∈ init_labels \/ (label, confidence, score) = sentinel)
  /\ 0 <= score <= 10
  /\ (3 <= length recs <= 4)%nat.

(** [m1] and [m2] run from [s] both return, and leave the same state. *)
Definition returns_both {S A B} (m1 : ST S A) (m2 : ST S B) (s : S)
    (Q : A -> B -> S -> Prop) : Prop :=
  exists a b s', m1 s = (Ret a, s') /\ m2 s = (Ret b, s') /\ Q a b s'.

(** Two worlds that agree on what the generators read: the state of numpy's
    generator and the clock. *)
Definition agree (w1 w2 : world) : Prop :=
  np_random w1 = np_random w2 /\ clock w1 = clock w2.

(** [m] reads nothing else of the world. *)
Definition respects {A} (m : M A) : Prop :=
  forall w1 w2, agree w1 w2 ->
    fst (m w1) = fst (m w2) /\ agree (snd (m w1)) (snd (m w2)).

(** The draws of [np.random.uniform(low, high, size)] on the generator. *)
Fixpoint uniform_draws (low high : R) (size : nat) (g : bitgen) : list R * bitgen :=
  match size with
  | O => ([], g)
  | S n =>
      let '(u, g) := np_random_sample g in
      let '(xs, g) := uniform_draws low high n g in
      ((low + (high - low) * u) :: xs, g)
  end.

(** The model that fallback training builds, and the generator state that
    the training leaves: both are fixed by the seed 42. *)
Definition fallback_training : classifier * bitgen :=
  let '(humidity, g) := uniform_draws 20 95 500 (np_seed 42) in
  let '(light, g) := uniform_draws 100 1500 500 g in
  let '(moisture, g) := uniform_draws 200 900 500 g in
  let y := map (fun '(h, l, m) => training_label h l m) (zip3 humidity light moisture) in
  let X := map (fun '(h, l, m) => [h; l; m]) (zip3 humidity light moisture) in
  (tree_fit X y, g).

Definition fallback_model : classifier := fst fallback_training.

(** The outcomes of loading that are failures: no file, a file that cannot
    be opened, a file that does not unpickle. *)
Definition is_load_failure (f : model_file) : Prop :=
  match f with
  | FilePickled _ => False
  | FileMissing | FileUnreadable | FileCorrupt => True
  end.

(** ** Properties *)

Lemma py_max_Rmax a b : py_max a b = Rmax a b.
Proof. unfold py_max, Rmax. destruct (Rlt_dec a b), (Rle_dec a b); lra. Qed.

Lemma py_min_Rmin a b : py_min a b = Rmin a b.
Proof. unfold py_min, Rmin. destruct (Rlt_dec b a), (Rle_dec a b); lra. Qed.

Lemma clamp_bounds lo hi x : lo <= hi -> lo <= clamp lo hi x <= hi.
Proof.
  intros Hle. unfold clamp, Rmax, Rmin.
  destruct (Rle_dec hi x); destruct (Rle_dec lo _); lra.
Qed.

Lemma py_clamp lo hi x : py_max lo (py_min hi x) = clamp lo hi x.
Proof. now rewrite py_max_Rmax, py_min_Rmin. Qed.

Lemma py_clamp_bounds lo hi x : lo <= hi -> lo <= py_max lo (py_min hi x) <= hi.
Proof. rewrite py_clamp. apply clamp_bounds. Qed.

Lemma clamp_inside lo hi x : lo <= x <= hi -> clamp lo hi x = x.
Proof.
  intros Hx. unfold clamp, Rmax, Rmin.
  destruct (Rle_dec hi x); destruct (Rle_dec lo _); lra.
Qed.

Lemma calculate_health_score_spec h l m :
  calculate_health_score h l m = spec_score h l m.
Proof.
  unfold calculate_health_score, spec_score, clamp01.
  rewrite !py_clamp. f_equal. lra.
Qed.

(** C2. The score is the weighted sum of the three clamped closeness terms,
    times ten, clamped again to [0,10]; hence it lies in [0,10], and the
    optimum (70, 500, 650) scores 10. *)
Theorem C2_score_formula :
  (forall h l m : R,
      calculate_health_score h l m = spec_score h l m
      /\ 0 <= calculate_health_score h l m <= 10)
  /\ calculate_health_score 70 500 650 = 10.
Proof.
  split.
  - intros h l m. split; [apply calculate_health_score_spec|].
    unfold calculate_health_score. apply py_clamp_bounds. lra.
  - rewrite calculate_health_score_spec. unfold spec_score, clamp01.
    replace (70 - 70) with 0 by lra. replace (500 - 500) with 0 by lra.
    replace (650 - 650) with 0 by lra. rewrite Rabs_R0.
    rewrite !(clamp_inside 0 1) by lra. rewrite clamp_inside by lra. lra.
Qed.

Lemma Rleb_true x y : Rleb x y = true <-> x <= y.
Proof. unfold Rleb. destruct (Rle_dec x y); split; intros; try done; lra. Qed.

Lemma Rltb_true x y : Rltb x y = true <-> x < y.
Proof. unfold Rltb. destruct (Rlt_dec x y); split; intros; try done; lra. Qed.

Lemma Rltb_false x y : Rltb x y = false <-> ~ x < y.
Proof. unfold Rltb. destruct (Rlt_dec x y); split; intros; try done. Qed.

Lemma healthy_range_test h l m :
  Rleb 60 h && Rleb h 80 && Rleb 300 l && Rleb l 800 && Rleb 500 m && Rleb m 750 = true
  <-> healthy_range h l m.
Proof.
  unfold healthy_range. rewrite !andb_true_iff, !Rleb_true. tauto.
Qed.

Lemma training_label_cases h l m :
  (healthy_range h l m /\ training_label h l m = 0%Z)
  \/ (~ healthy_range h l m /\ m < 400 /\ training_label h l m = 1%Z)
  \/ (~ healthy_range h l m /\ ~ m < 400 /\ (l > 1000 \/ h < 40)
      /\ training_label h l m = 2%Z)
  \/ (~ healthy_range h l m /\ ~ m < 400 /\ ~ (l > 1000 \/ h < 40)
      /\ training_label h l m = 3%Z).
Proof.
  unfold training_label.
  destruct (_ && _ && _ && _ && _ && _) eqn:Hh.
  { left. split; [by apply healthy_range_test|done]. }
  right.
  assert (~ healthy_range h l m) as Hn.
  { intros H. apply healthy_range_test in H. congruence. }
  destruct (Rltb m 400) eqn:Hm.
  { left. apply Rltb_true in Hm. done. }
  right. apply Rltb_false in Hm.
  destruct (Rltb 1000 l) eqn:Hl; simpl.
  { left. apply Rltb_true in Hl. repeat split; try done. left. lra. }
  apply Rltb_false in Hl.
  destruct (Rltb h 40) eqn:Hq.
  { left. apply Rltb_true in Hq. repeat split; try done. by right. }
  right. apply Rltb_false in Hq. repeat split; try done. intros [?|?]; lra.
Qed.

(** C4. The training-label rule: Healthy exactly inside the three ranges;
    outside them Needs Water exactly when moisture < 400; otherwise Needs
    Shade exactly when light > 1000 or humidity < 40; otherwise Needs
    Attention.  The three samples of the specification get the labels it
    names, and the class codes carry these names in [labels]. *)
Theorem C4_training_label_rule :
  (forall h l m : R,
      (training_label h l m = HEALTHY <-> healthy_range h l m)
      /\ (training_label h l m = NEEDS_WATER <->
          ~ healthy_range h l m /\ m < 400)
      /\ (training_label h l m = NEEDS_SHADE <->
          ~ healthy_range h l m /\ ~ m < 400 /\ (l > 1000 \/ h < 40))
      /\ (training_label h l m = NEEDS_ATTENTION <->
          ~ healthy_range h l m /\ ~ m < 400 /\ ~ (l > 1000 \/ h < 40)))
  /\ (training_label 70 500 650 = HEALTHY
      /\ training_label 70 500 300 = NEEDS_WATER
      /\ training_label 30 1200 600 = NEEDS_SHADE)
  /\ (py_index init_labels HEALTHY = Ret "Healthy"%string
      /\ py_index init_labels NEEDS_WATER = Ret "Needs Water"%string
      /\ py_index init_labels NEEDS_SHADE = Ret "Needs Shade"%string
      /\ py_index init_labels NEEDS_ATTENTION = Ret "Needs Attention"%string).
Proof.
  assert (forall h l m : R,
      (training_label h l m = HEALTHY <-> healthy_range h l m)
      /\ (training_label h l m = NEEDS_WATER <->
          ~ healthy_range h l m /\ m < 400)
      /\ (training_label h l m = NEEDS_SHADE <->
          ~ healthy_range h l m /\ ~ m < 400 /\ (l > 1000 \/ h < 40))
      /\ (training_label h l m = NEEDS_ATTENTION <->
          ~ healthy_range h l m /\ ~ m < 400 /\ ~ (l > 1000 \/ h < 40))) as Hrule.
  { intros h l m. unfold HEALTHY, NEEDS_WATER, NEEDS_SHADE, NEEDS_ATTENTION.
    destruct (training_label_cases h l m)
      as [[H0 ->]|[(H0 & H1 & ->)|[(H0 & H1 & H2 & ->)|(H0 & H1 & H2 & ->)]]];
      refine (conj _ (conj _ (conj _ _))); (split; [intros He|intros Hc]);
      try done; try (exfalso; lia); tauto. }
  split; [exact Hrule|]. split; [|done].
  repeat split.
  - apply Hrule. unfold healthy_range. lra.
  - apply Hrule. unfold healthy_range. lra.
  - apply Hrule. unfold healthy_range. lra.
Qed.

Lemma ideal_conditions_lookup :
  ideal_conditions !! 0%Z
    = Some {| ideal_humidity := 70; ideal_light := 500; ideal_moisture := 650 |}
  /\ ideal_conditions !! 1%Z
    = Some {| ideal_humidity := 50; ideal_light := 400; ideal_moisture := 300 |}
  /\ ideal_conditions !! 2%Z
    = Some {| ideal_humidity := 35; ideal_light := 1200; ideal_moisture := 500 |}
  /\ ideal_conditions !! 3%Z
    = Some {| ideal_humidity := 45; ideal_light := 900; ideal_moisture := 400 |}.
Proof. done. Qed.

Lemma confidence_of_ideal h l m p i :
  ideal_conditions !! p = Some i ->
  calculate_confidence h l m p = Ret (spec_confidence h l m i)
  /\ 50 <= spec_confidence h l m i <= 100.
Proof.
  intros Hp. unfold calculate_confidence. rewrite Hp.
  assert (sqrt ((Rabs (h - ideal_humidity i) / 100) ^ 2
                + (Rabs (l - ideal_light i) / 1500) ^ 2
                + (Rabs (m - ideal_moisture i) / 900) ^ 2)
          = spec_distance h l m i) as ->.
  { unfold spec_distance. f_equal.
    unfold Rdiv. rewrite !Rpow_mult_distr, !pow2_abs. lra. }
  pose proof (sqrt_pos ((h / 100 - ideal_humidity i / 100) ^ 2
      + (l / 1500 - ideal_light i / 1500) ^ 2
      + (m / 900 - ideal_moisture i / 900) ^ 2)) as Hd.
  fold (spec_distance h l m i) in Hd.
  unfold spec_confidence. split; [|apply clamp_bounds; lra].
  f_equal. rewrite py_max_Rmax. unfold clamp. f_equal.
  unfold Rmin. destruct (Rle_dec _ _); lra.
Qed.

(** C6. For every input and each of the four labels, the heuristic
    confidence is clamp(100 - 200 * distance, 50, 100), the distance being
    Euclidean between the input and the label's ideal point after division
    by (100, 1500, 900); it lies in [50,100]. *)
Theorem C6_confidence_formula :
  forall h l m : R,
    confidence_agrees h l m 0 "Healthy"
      {| ideal_humidity := 70; ideal_light := 500; ideal_moisture := 650 |}
    /\ confidence_agrees h l m 1 "Needs Water"
      {| ideal_humidity := 50; ideal_light := 400; ideal_moisture := 300 |}
    /\ confidence_agrees h l m 2 "Needs Shade"
      {| ideal_humidity := 35; ideal_light := 1200; ideal_moisture := 500 |}
    /\ confidence_agrees h l m 3 "Needs Attention"
      {| ideal_humidity := 45; ideal_light := 900; ideal_moisture := 400 |}.
Proof.
  intros h l m. unfold confidence_agrees.
  destruct ideal_conditions_lookup as (H0 & H1 & H2 & H3).
  refine (conj _ (conj _ (conj _ _))); (split; [done|]);
    by apply confidence_of_ideal.
Qed.

Lemma result_bind_Ret {A B} (m : result A) (f : A -> result B) b :
  m ≫= f = Ret b -> exists a, m = Ret a /\ f a = Ret b.
Proof. destruct m as [a|e]; simpl; [eauto|done]. Qed.

Lemma py_index_elem {A} (l : list A) i x : py_index l i = Ret x -> x ∈ l.
Proof.
  unfold py_index. destruct (_ <? 0)%Z; [done|].
  destruct (l !! _) eqn:Hl; [|done].
  intros [= ->]. by eapply list_elem_of_lookup_2.
Qed.

Lemma predict_health_body_label self h l m label confidence score :
  predict_health_body self h l m = Ret (label, confidence, score) ->
  label ∈ labels self.
Proof.
  unfold predict_health_body. intros H.
  apply result_bind_Ret in H as (mdl & _ & H).
  apply result_bind_Ret in H as (predictions & _ & H).
  apply result_bind_Ret in H as (prediction & _ & H).
  apply result_bind_Ret in H as (conf & _ & H).
  apply result_bind_Ret in H as (lab & Hlab & H).
  injection H as -> _ _. by eapply py_index_elem.
Qed.

(** C1. [predict_health] always returns: when its [try] block raises, the
    result is the sentinel ("Unknown", 0.0, 0.0); when it does not, the
    result is the block's, and its label is one of the four labels. *)
Theorem C1_predict_health_contained :
  forall (mdl : option classifier) (h l m : R),
    (exists r, predict_health (predictor_with mdl) h l m = Ret r)
    /\ match predict_health_body (predictor_with mdl) h l m with
       | Raise _ => predict_health (predictor_with mdl) h l m = Ret sentinel
       | Ret (label, confidence, score) =>
           predict_health (predictor_with mdl) h l m = Ret (label, confidence, score)
           /\ label ∈ init_labels
       end.
Proof.
  intros mdl h l m. unfold predict_health, try_except.
  destruct (predict_health_body (predictor_with mdl) h l m)
    as [[[label c] sc]|e] eqn:Hb.
  - split; [eauto|]. split; [done|].
    by apply predict_health_body_label in Hb.
  - split; [eauto|done].
Qed.

(** Class 7 is outside [labels]: the [IndexError] is contained.  Class -1 is
    read from the end of [labels]. *)
Example predict_health_class_out_of_range :
  predict_health (predictor_with (Some (constant_model 7 [1]))) 70 500 650 = Ret sentinel.
Proof. reflexivity. Qed.

Example predict_health_no_model :
  predict_health (predictor_with None) 70 500 650 = Ret sentinel.
Proof. reflexivity. Qed.

Example predict_health_negative_class :
  exists confidence score,
    predict_health (predictor_with (Some (constant_model (-1) [1]))) 70 500 650 = Ret ("Needs Attention"%string, confidence, score).
Proof. eexists _, _. reflexivity. Qed.

Lemma Int_part_IZR z : Int_part (IZR z) = z.
Proof. symmetry. apply Int_part_spec. lra. Qed.

Lemma round_half_even_IZR z : round_half_even (IZR z) = z.
Proof.
  unfold round_half_even. rewrite Int_part_IZR.
  destruct (Rlt_dec _ _); [done|lra].
Qed.

Lemma format_0f_350 : format_0f 350 = "350"%string.
Proof.
  unfold format_0f. destruct (Rlt_dec 350 0); [lra|].
  by rewrite round_half_even_IZR.
Qed.

Lemma digit_value_pretty (d : N) :
  (d < 10)%N -> digit_value (pretty_N_char d) = Some (Z.of_N d).
Proof.
  intros Hd.
  assert (d = 0 \/ d = 1 \/ d = 2 \/ d = 3 \/ d = 4 \/ d = 5 \/ d = 6
          \/ d = 7 \/ d = 8 \/ d = 9)%N as Hcases by lia.
  destruct Hcases as [->|[->|[->|[->|[->|[->|[->|[->|[->| ->]]]]]]]]]; reflexivity.
Qed.

Lemma pretty_N_go_app (x : N) (s1 s2 : string) :
  pretty_N_go x s1 +:+ s2 = pretty_N_go x (s1 +:+ s2).
Proof.
  revert s1. induction (N.lt_wf_0 x) as [x _ IH]; intros s1.
  assert (x = 0 \/ 0 < x)%N as [->|Hx] by lia.
  - by rewrite !pretty_N_go_0.
  - rewrite (pretty_N_go_step x s1), (pretty_N_go_step x (s1 +:+ s2)) by done.
    rewrite IH by (by apply N.div_lt). done.
Qed.

Lemma read_digits_pretty_N_go (x : N) (s : string) :
  (0 < x)%N ->
  read_digits (pretty_N_go x s) None = read_digits s (Some (Z.of_N x)).
Proof.
  revert s. induction (N.lt_wf_0 x) as [x _ IH]; intros s Hx.
  rewrite pretty_N_go_step by done.
  pose proof (digit_value_pretty (x `mod` 10)%N) as Hd.
  assert (x `mod` 10 < 10)%N as Hlt by (apply N.mod_lt; lia).
  assert (Z.of_N x = 10 * Z.of_N (x `div` 10) + Z.of_N (x `mod` 10))%Z as Hx10.
  { rewrite (N.div_mod x 10) at 1 by lia. lia. }
  assert (x `div` 10 = 0 \/ 0 < x `div` 10)%N as [H0|Hpos] by lia.
  - rewrite H0, pretty_N_go_0. cbn [read_digits]. rewrite Hd by done.
    rewrite H0 in Hx10. simpl default. by rewrite Hx10.
  - rewrite IH; [|by apply N.div_lt|done].
    cbn [read_digits]. rewrite Hd by done. simpl default. by rewrite Hx10.
Qed.

Lemma read_digits_pretty (z : Z) (rest : string) :
  (0 <= z)%Z ->
  (forall acc, read_digits rest acc = acc) ->
  read_digits (pretty z +:+ rest) None = Some z.
Proof.
  intros Hz Hrest. destruct z as [|q|q]; [| |lia].
  - change (pretty 0%Z) with "0"%string. simpl. apply Hrest.
  - change (pretty (Z.pos q)) with (pretty (N.pos q)).
    unfold pretty, pretty_N. destruct (decide (N.pos q = 0%N)) as [?|_]; [done|].
    rewrite pretty_N_go_app, read_digits_pretty_N_go by done.
    simpl. apply Hrest.
Qed.

Lemma strip_prefix_app (prefix s : string) :
  strip_prefix prefix (prefix +:+ s) = Some s.
Proof.
  induction prefix as [|c prefix IH]; simpl; [done|].
  by rewrite Ascii.eqb_refl.
Qed.

Lemma round_half_even_near (x : R) : Rabs (IZR (round_half_even x) - x) <= 1 / 2.
Proof.
  unfold round_half_even. destruct (base_Int_part x) as [Hlo Hhi].
  repeat destruct (Rlt_dec _ _); try destruct (Z.even _);
    rewrite ?plus_IZR; apply Rabs_le; lra.
Qed.

Lemma round_half_even_nonneg (x : R) : 0 <= x -> (0 <= round_half_even x)%Z.
Proof.
  intros Hx. destruct (base_Int_part x) as [Hlo Hhi].
  assert (0 <= Int_part x)%Z as Hn.
  { apply Z.lt_succ_r, lt_IZR. rewrite succ_IZR. lra. }
  unfold round_half_even.
  repeat destruct (Rlt_dec _ _); try destruct (Z.even _); lia.
Qed.

(** The number that can be read after [prefix] in a line made of [prefix],
    [x] formatted with [.0f], and a rest that does not start with a digit is
    within 1/2 of [x]. *)
Lemma number_after_format_0f (prefix rest : string) (x : R) :
  (forall acc, read_digits rest acc = acc) ->
  exists z, number_after prefix (prefix +:+ format_0f x +:+ rest) = Some z
            /\ Rabs (IZR z - x) <= 1 / 2.
Proof.
  intros Hrest. unfold number_after. rewrite strip_prefix_app.
  unfold format_0f, leading_int. destruct (Rlt_dec x 0) as [Hneg|Hpos].
  - exists (- round_half_even (- x))%Z. split.
    + change (("-" +:+ pretty (round_half_even (- x))) +:+ rest)
        with (String "-"%char (pretty (round_half_even (- x)) +:+ rest)).
      cbn [read_digits digit_value].
      rewrite read_digits_pretty; [done| |done].
      apply round_half_even_nonneg. lra.
    + pose proof (round_half_even_near (- x)) as Hn.
      rewrite opp_IZR.
      replace (- IZR (round_half_even (- x)) - x)
        with (- (IZR (round_half_even (- x)) - - x)) by lra.
      by rewrite Rabs_Ropp.
  - exists (round_half_even x). split; [|apply round_half_even_near].
    rewrite read_digits_pretty; [done| |done].
    apply round_half_even_nonneg. lra.
Qed.

(** C8. [get_recommendations] is a function of the label and the reading
    alone; on a reading that has its moisture and light it returns three or
    four strings for every label; for Needs Water the fourth string carries
    the moisture of the reading, for Needs Shade the light: the number that
    can be read in it after "Current moisture: " (after "Current light: ") is
    within 1/2 of the value; and on moisture 350 a returned string contains
    350. *)
Theorem C8_recommendations :
  (forall (label : string) (d : gmap string R) (moisture light : R),
      exists recs,
        get_recommendations label
          (<["moisture"%string := moisture]> (<["light"%string := light]> d)) = Ret recs
        /\ (3 <= length recs <= 4)%nat)
  /\ (forall (d : gmap string R) (moisture : R),
        exists a b c line z,
          get_recommendations "Needs Water" (<["moisture"%string := moisture]> d)
          = Ret [a; b; c; line]
          /\ number_after "Current moisture: " line = Some z
          /\ Rabs (IZR z - moisture) <= 1 / 2)
  /\ (forall (d : gmap string R) (light : R),
        exists a b c line z,
          get_recommendations "Needs Shade" (<["light"%string := light]> d)
          = Ret [a; b; c; line]
          /\ number_after "Current light: " line = Some z
          /\ Rabs (IZR z - light) <= 1 / 2)
  /\ (exists recs s,
        get_recommendations "Needs Water" {[ "moisture"%string := 350 ]} = Ret recs
        /\ s ∈ recs /\ py_in "350" s = true).
Proof.
  split; [|split; [|split]].
  - intros label d moisture light. unfold get_recommendations, py_getitem.
    rewrite lookup_insert_eq, lookup_insert_ne, lookup_insert_eq by done.
    repeat case_decide; simpl; eexists; (split; [done|simpl; lia]).
  - intros d moisture. unfold get_recommendations, py_getitem.
    rewrite lookup_insert_eq.
    destruct (number_after_format_0f "Current moisture: " " (target: 600-750)"
                moisture) as (z & Hz & Hnear); [done|].
    simpl. eexists _, _, _, _, z. split; [done|]. by split.
  - intros d light. unfold get_recommendations, py_getitem.
    rewrite lookup_insert_eq.
    destruct (number_after_format_0f "Current light: " " lux (optimal: 300-800)"
                light) as (z & Hz & Hnear); [done|].
    simpl. eexists _, _, _, _, z. split; [done|]. by split.
  - unfold get_recommendations, py_getitem. rewrite lookup_singleton_eq. simpl.
    eexists _, _. split; [done|]. rewrite format_0f_350. split.
    + do 3 apply list_elem_of_further. apply list_elem_of_here.
    + reflexivity.
Qed.

(** C10. Every label other than Needs Water, Needs Shade and Needs
    Attention gets the three strings of the Healthy branch, whatever the
    reading: so does the sentinel label Unknown. *)
Theorem C10_other_labels_as_healthy :
  forall (label : string) (d : gmap string R),
    label <> "Needs Water"%string ->
    label <> "Needs Shade"%string ->
    label <> "Needs Attention"%string ->
    get_recommendations label d
    = Ret [ "Continue current maintenance schedule";
            "Monitor sensor readings";
            "System operating optimally" ]%string
    /\ get_recommendations label d = get_recommendations "Healthy" d.
Proof.
  intros label d H1 H2 H3. unfold get_recommendations.
  repeat case_decide; done.
Qed.

Lemma C10_witness_unknown :
  get_recommendations "Unknown" ∅
  = Ret [ "Continue current maintenance schedule";
          "Monitor sensor readings";
          "System operating optimally" ]%string
  /\ get_recommendations "Unknown" ∅ = get_recommendations "Healthy" ∅.
Proof.
  apply (C10_other_labels_as_healthy "Unknown" ∅); discriminate.
Defined.

(** *** The generators *)

Lemma returns_ret {S A} (a : A) (s : S) (Q : A -> S -> Prop) :
  Q a s -> returns (mret a) s Q.
Proof. intros HQ. by exists a, s. Qed.

Lemma returns_bind {S A B} (m : ST S A) (f : A -> ST S B) (s : S)
    (Q : B -> S -> Prop) :
  returns m s (fun a s' => returns (f a) s' Q) -> returns (m ≫= f) s Q.
Proof.
  intros (a & s' & Hm & b & s'' & Hf & HQ). exists b, s''. split; [|done].
  unfold mbind, ST_bind. by rewrite Hm.
Qed.

Lemma returns_lift {S A} (r : result A) (a : A) (s : S) (Q : A -> S -> Prop) :
  r = Ret a -> Q a s -> returns (lift r) s Q.
Proof. intros -> HQ. by exists a, s. Qed.

Lemma returns_now (w : world) (Q : datetime -> world -> Prop) :
  Q (clock w) w -> returns datetime_now w Q.
Proof. intros HQ. by exists (clock w), w. Qed.

Lemma returns_seed (seed : Z) (w : world) (Q : unit -> world -> Prop) :
  Q tt (set_np_random (np_seed seed) w) -> returns (np_random_seed seed) w Q.
Proof. intros HQ. by eexists _, _. Qed.

Lemma returns_normal (loc scale : R) (w : world) (Q : R -> world -> Prop) :
  (forall z g, Q (loc + scale * z) (set_np_random g w)) ->
  returns (np_random_normal loc scale) w Q.
Proof.
  intros HQ. unfold returns, np_random_normal.
  destruct (np_standard_normal (np_random w)) as [z g]. by eexists _, _.
Qed.

Lemma returns_uniform (low high : R) (w : world) (Q : R -> world -> Prop) :
  (forall u g, Q (low + (high - low) * u) (set_np_random g w)) ->
  returns (np_random_uniform low high) w Q.
Proof.
  intros HQ. unfold returns, np_random_uniform.
  destruct (np_random_sample (np_random w)) as [u g]. by eexists _, _.
Qed.

Lemma returns_mapM {S A B} (f : A -> ST S B) (P : A -> B -> Prop) (l : list A) :
  (forall x s, returns (f x) s (fun y _ => P x y)) ->
  forall s, returns (mapM f l) s (fun ys _ => Forall2 P l ys).
Proof.
  intros Hf. induction l as [|x l IH]; intros s.
  - apply returns_ret. constructor.
  - change (mapM f (x :: l)) with (y ← f x; k ← mapM f l; mret (y :: k)).
    apply returns_bind. destruct (Hf x s) as (y & s1 & Hy & HP).
    exists y, s1. split; [done|].
    apply returns_bind. destruct (IH s1) as (ys & s2 & Hys & HPs).
    exists ys, s2. split; [done|].
    apply returns_ret. by constructor.
Qed.

Ltac run_step :=
  first
    [ apply returns_bind
    | apply returns_now
    | apply returns_normal; intros ? ?
    | apply returns_uniform; intros ? ?
    | eapply returns_lift; [reflexivity|]
    | apply returns_ret ];
  cbv beta iota zeta.

Lemma get_current_readings_returns (self : SensorSimulator) (location : string)
    (w : world) :
  base_values self = init_base_values ->
  returns (get_current_readings self location) w
          (fun r _ => reading_in_bounds r
                      /\ reading_timestamp r = clock w
                      /\ reading_location r = location).
Proof.
  intros Hb. unfold get_current_readings. rewrite Hb.
  repeat run_step.
  unfold reading_in_bounds, channels_in_bounds. simpl.
  repeat split; try done; apply py_clamp_bounds; lra.
Qed.

Lemma historical_row_returns (timestamp : datetime) (w : world) :
  returns (historical_row timestamp) w
          (fun row _ => row_timestamp row = timestamp /\ row_in_bounds row).
Proof.
  unfold historical_row. cbv beta zeta.
  do 13 run_step.
  destruct (bool_decide (hour timestamp ∈ [6; 18]%Z));
    destruct (bool_decide (hour timestamp ∈ [12; 13; 14]%Z));
    repeat run_step;
    unfold row_in_bounds, channels_in_bounds; simpl;
    (split; [done|]); repeat split; apply py_clamp_bounds; lra.
Qed.

Lemma pd_date_range_day (now : datetime) :
  pd_date_range (now - timedelta_hours 24) now (timedelta_minutes 15)
  = map (fun k : nat => (now - timedelta_hours 24 + Z.of_nat k * timedelta_minutes 15)%Z)
        (seq 0 97).
Proof.
  unfold pd_date_range.
  destruct (Z.ltb_spec now (now - timedelta_hours 24)) as [Hlt|_].
  { unfold timedelta_hours in Hlt. lia. }
  replace ((now - (now - timedelta_hours 24)) / timedelta_minutes 15)%Z with 96%Z.
  - reflexivity.
  - replace (now - (now - timedelta_hours 24))%Z with (timedelta_hours 24) by lia.
    reflexivity.
Qed.

Lemma rows_of_timestamps (ts : list datetime) (rows : list HistoricalRow) :
  Forall2 (fun t row => row_timestamp row = t /\ row_in_bounds row) ts rows ->
  map row_timestamp rows = ts /\ Forall row_in_bounds rows.
Proof.
  induction 1 as [|t row ts rows [Ht Hb] _ [IH1 IH2]]; [done|].
  split; [simpl; by rewrite Ht, IH1|by constructor].
Qed.

Lemma generate_historical_data_returns (w : world) :
  returns (generate_historical_data HistoricalDataGenerator_init) w
          (fun rows _ =>
             map row_timestamp rows
             = map (fun k : nat =>
                      (clock w - timedelta_hours 24 + Z.of_nat k * timedelta_minutes 15)%Z)
                   (seq 0 97)
             /\ Forall row_in_bounds rows).
Proof.
  unfold generate_historical_data. do 2 run_step.
  change (hours_back HistoricalDataGenerator_init) with 24%Z.
  rewrite pd_date_range_day.
  destruct (returns_mapM historical_row
              (fun t row => row_timestamp row = t /\ row_in_bounds row)
              (map (fun k : nat =>
                      (clock w - timedelta_hours 24 + Z.of_nat k * timedelta_minutes 15)%Z)
                   (seq 0 97))
              (fun x s => historical_row_returns x s) w)
    as (rows & w' & Hrun & Hrows).
  exists rows, w'. split; [done|]. by apply rows_of_timestamps.
Qed.

(** C3. Every reading of the live simulator, for every location, and every
    row of the historical generator, has humidity in [20,95], light in
    [50,1500], moisture in [200,900], co2 in [300,600] and temperature in
    [15,35], whatever the draws, the events and the hour. *)
Theorem C3_channels_clamped :
  forall w : world,
    (forall location : string,
        returns (self ← SensorSimulator_init; get_current_readings self location) w
                (fun r _ => reading_in_bounds r))
    /\ returns (generate_historical_data HistoricalDataGenerator_init) w
               (fun rows _ => Forall row_in_bounds rows).
Proof.
  intros w. split.
  - intros location. unfold SensorSimulator_init.
    apply returns_bind. exists {| base_values := init_base_values;
                                  last_update := IZR (clock w) / 1000000 |}, w.
    split; [done|].
    destruct (get_current_readings_returns
                {| base_values := init_base_values;
                   last_update := IZR (clock w) / 1000000 |} location w eq_refl)
      as (r & w' & Hrun & Hb & _).
    by exists r, w'.
  - destruct (generate_historical_data_returns w) as (rows & w' & Hrun & _ & Hb).
    by exists rows, w'.
Qed.

Lemma head_map {A B} (f : A -> B) (l : list A) : head (map f l) = f <$> head l.
Proof. by destruct l. Qed.

Lemma last_map {A B} (f : A -> B) (l : list A) : last (map f l) = f <$> last l.
Proof.
  induction l as [|x [|y l] IH]; [done..|].
  change (last (map f (x :: y :: l))) with (last (map f (y :: l))).
  by rewrite IH.
Qed.

Lemma day_of_timestamps (now : datetime) (rows : list HistoricalRow) :
  map row_timestamp rows
  = map (fun k : nat => (now - timedelta_hours 24 + Z.of_nat k * timedelta_minutes 15)%Z)
        (seq 0 97) ->
  day_series now rows.
Proof.
  intros Hts. split; [|split; [done|split]].
  - rewrite <- (length_map row_timestamp), Hts, length_map. apply length_seq.
  - rewrite <- head_map, Hts, head_map. simpl. f_equal. lia.
  - rewrite <- last_map, Hts, last_map.
    change (last (seq 0 97)) with (Some 96%nat). simpl. f_equal.
    unfold timedelta_hours, timedelta_minutes. lia.
Qed.

(** C5. Whatever the seed and the state of the generator, the historical
    series at [now] has 97 rows; the k-th timestamp is [now] - 24 h + k * 15
    min, so the first is [now] - 24 h, the last is [now], and two
    neighbours are 15 minutes apart. *)
Theorem C5_historical_timestamps :
  forall (w : world) (seed : Z),
    returns (generate_historical_data HistoricalDataGenerator_init) w
            (fun rows _ => day_series (clock w) rows)
    /\ returns (_ ← np_random_seed seed;
                generate_historical_data HistoricalDataGenerator_init) w
               (fun rows _ => day_series (clock w) rows).
Proof.
  intros w seed. split.
  - destruct (generate_historical_data_returns w) as (rows & w' & Hrun & Hts & _).
    exists rows, w'. split; [done|].
    by apply day_of_timestamps.
  - apply returns_bind, returns_seed.
    destruct (generate_historical_data_returns (set_np_random (np_seed seed) w))
      as (rows & w' & Hrun & Hts & _).
    exists rows, w'. split; [done|].
    by apply day_of_timestamps.
Qed.

(** *** What a reading depends on *)

Lemma respects_ret {A} (a : A) : respects (mret a).
Proof. by intros w1 w2 Hw. Qed.

Lemma respects_lift {A} (r : result A) : respects (lift r).
Proof. by intros w1 w2 Hw. Qed.

Lemma respects_bind {A B} (m : M A) (f : A -> M B) :
  respects m -> (forall a, respects (f a)) -> respects (m ≫= f).
Proof.
  intros Hm Hf w1 w2 Hw. destruct (Hm w1 w2 Hw) as [Hr Hs].
  unfold mbind, ST_bind.
  destruct (m w1) as [[a1|e1] s1], (m w2) as [[a2|e2] s2]; simpl in *;
    try discriminate.
  - injection Hr as ->. by apply Hf.
  - injection Hr as ->. by split.
Qed.

Lemma respects_now : respects datetime_now.
Proof. intros w1 w2 [Hg Hc]. unfold datetime_now. simpl. by rewrite Hc. Qed.

Lemma respects_normal (loc scale : R) : respects (np_random_normal loc scale).
Proof.
  intros w1 w2 [Hg Hc]. unfold np_random_normal. rewrite Hg.
  by destruct (np_standard_normal (np_random w2)).
Qed.

Lemma respects_uniform (low high : R) : respects (np_random_uniform low high).
Proof.
  intros w1 w2 [Hg Hc]. unfold np_random_uniform. rewrite Hg.
  by destruct (np_random_sample (np_random w2)).
Qed.

Lemma get_current_readings_respects (self : SensorSimulator) (location : string) :
  respects (get_current_readings self location).
Proof.
  unfold get_current_readings.
  repeat first
    [ apply respects_bind; [|intros ?]
    | apply respects_now
    | apply respects_normal
    | apply respects_uniform
    | apply respects_lift
    | apply respects_ret ].
Qed.

Lemma get_current_readings_base_values (self1 self2 : SensorSimulator) location :
  base_values self1 = base_values self2 ->
  get_current_readings self1 location = get_current_readings self2 location.
Proof. intros Hb. unfold get_current_readings. by rewrite Hb. Qed.

(** C9. Two calls of [get_current_readings] for the same location, each made
    right after seeding the generator with the same seed and at the same
    [now], return the same reading, in every field: neither the rest of the
    world nor the simulator's [last_update] is read. *)
Theorem C9_sample_deterministic :
  forall (seed : Z) (location : string) (last1 last2 : R) (w1 w2 : world),
    clock w1 = clock w2 ->
    exists r : Reading,
      fst (seeded_sample seed location last1 w1) = Ret r
      /\ fst (seeded_sample seed location last2 w2) = Ret r.
Proof.
  intros seed location last1 last2 w1 w2 Hclock.
  assert (forall last w,
    seeded_sample seed location last w
    = get_current_readings {| base_values := init_base_values; last_update := last |}
        location (set_np_random (np_seed seed) w)) as Hsample by done.
  destruct (get_current_readings_returns
              {| base_values := init_base_values; last_update := last1 |}
              location (set_np_random (np_seed seed) w1) eq_refl)
    as (r & w' & Hrun & _).
  exists r. rewrite !Hsample, Hrun. split; [done|].
  rewrite (get_current_readings_base_values _
             {| base_values := init_base_values; last_update := last1 |}) by done.
  destruct (get_current_readings_respects
              {| base_values := init_base_values; last_update := last1 |} location
              (set_np_random (np_seed seed) w1) (set_np_random (np_seed seed) w2))
    as [Hr _]; [by split|].
  by rewrite <- Hr, Hrun.
Qed.

(** *** Loading the model *)

Lemma set_np_random_id (w : world) : set_np_random (np_random w) w = w.
Proof. by destruct w. Qed.

Lemma set_np_random_twice (g1 g2 : bitgen) (w : world) :
  set_np_random g2 (set_np_random g1 w) = set_np_random g2 w.
Proof. done. Qed.

Lemma np_random_uniform_n_draws (low high : R) (size : nat) (w : world) :
  np_random_uniform_n low high size w
  = (Ret (fst (uniform_draws low high size (np_random w))),
     set_np_random (snd (uniform_draws low high size (np_random w))) w).
Proof.
  revert w. induction size as [|n IH]; intros w.
  - simpl. by rewrite set_np_random_id.
  - change (np_random_uniform_n low high (S n))
      with (x ← np_random_uniform low high;
            xs ← np_random_uniform_n low high n; mret (x :: xs)).
    unfold mbind, ST_bind, np_random_uniform. simpl.
    destruct (np_random_sample (np_random w)) as [u g].
    rewrite IH. simpl.
    by destruct (uniform_draws low high n g) as [xs g'].
Qed.

(** The state that [create_fallback_model] leaves and what it returns: the
    model is installed in any case, and the save decides the outcome. *)
Lemma create_fallback_model_run (self : MossHealthPredictor) (w : world) :
  create_fallback_model (self, w)
  = (if disk_writable w then Ret tt else Raise OSError,
     ({| model := Some fallback_model; labels := labels self |},
      if disk_writable w
      then set_model_pkl (FilePickled fallback_model)
                         (set_np_random (snd fallback_training) w)
      else set_np_random (snd fallback_training) w)).
Proof.
  unfold fallback_model, fallback_training.
  destruct (uniform_draws 20 95 500 (np_seed 42)) as [humidity g1] eqn:E1.
  destruct (uniform_draws 100 1500 500 g1) as [light g2] eqn:E2.
  destruct (uniform_draws 200 900 500 g2) as [moisture g3] eqn:E3.
  unfold create_fallback_model, mbind, ST_bind, in_world, np_random_seed.
  cbv beta iota zeta.
  rewrite np_random_uniform_n_draws.
  change (np_random (set_np_random ?g _)) with g. rewrite E1.
  cbv beta iota zeta. cbn [fst snd].
  rewrite np_random_uniform_n_draws.
  change (np_random (set_np_random ?g _)) with g. rewrite E2.
  cbv beta iota zeta. cbn [fst snd].
  rewrite np_random_uniform_n_draws.
  change (np_random (set_np_random ?g _)) with g. rewrite E3.
  cbv beta iota zeta. cbn [fst snd].
  unfold set_model, pickle_dump. rewrite !set_np_random_twice.
  change (disk_writable (set_np_random g3 w)) with (disk_writable w).
  by destruct (disk_writable w).
Qed.

Lemma load_model_failure (self : MossHealthPredictor) (w : world) :
  is_load_failure (model_pkl w) ->
  load_model (self, w) = create_fallback_model (self, w).
Proof.
  intros Hf. unfold load_model, try_exceptS, mbind, ST_bind, in_world.
  unfold os_path_exists, pickle_load.
  destruct (model_pkl w) eqn:Hw; cbn -[create_fallback_model]; try done.
  - rewrite create_fallback_model_run.
    destruct (disk_writable w) eqn:Hd; [done|].
    rewrite create_fallback_model_run. cbn. by rewrite Hd.
  - by rewrite Hw.
  - by rewrite Hw.
Qed.

(** C7, as the code has it.  On every failure to load (no file, a file that
    cannot be opened, a file that does not unpickle) [load_model] installs
    the model of fallback training and keeps [labels]; it returns normally
    when the trained model can be saved, and the file then holds it; when it
    cannot, the save's [OSError] leaves [load_model]. *)
Theorem C7_load_failure_falls_back :
  forall (self : MossHealthPredictor) (w : world),
    is_load_failure (model_pkl w) ->
    exists w' : world,
      load_model (self, w)
      = (if disk_writable w then Ret tt else Raise OSError,
         ({| model := Some fallback_model; labels := labels self |}, w'))
      /\ (disk_writable w = true -> model_pkl w' = FilePickled fallback_model).
Proof.
  intros self w Hf. rewrite load_model_failure, create_fallback_model_run by done.
  eexists. split; [done|]. by intros ->.
Qed.

(** ** Further properties of the scorer, the confidence and the labels *)

Lemma ideal_conditions_dom (p : Z) :
  is_Some (ideal_conditions !! p) <-> (0 <= p <= 3)%Z.
Proof.
  rewrite <- elem_of_dom. unfold ideal_conditions.
  rewrite !dom_insert_L, dom_singleton_L.
  rewrite !elem_of_union, !elem_of_singleton. lia.
Qed.

(** X1. [calculate_confidence] knows the class codes 0 to 3 only: on them it
    returns a value in [50,100], on any other code it raises [KeyError]. *)
Theorem X1_confidence_key_error :
  forall (h l m : R) (p : Z),
    if decide (0 <= p <= 3)%Z
    then exists c, calculate_confidence h l m p = Ret c /\ 50 <= c <= 100
    else calculate_confidence h l m p = Raise (KeyError (pretty p)).
Proof.
  intros h l m p. case_decide as Hp.
  - apply ideal_conditions_dom in Hp as [i Hi].
    destruct (confidence_of_ideal h l m p i Hi) as [Hc Hb]. eauto.
  - unfold calculate_confidence.
    destruct (ideal_conditions !! p) as [i|] eqn:Hi; [|done].
    exfalso. apply Hp, ideal_conditions_dom. eauto.
Qed.

Lemma spec_distance_zero (h l m : R) (i : ideal) :
  spec_distance h l m i = 0
  <-> h = ideal_humidity i /\ l = ideal_light i /\ m = ideal_moisture i.
Proof.
  unfold spec_distance. split.
  - intros Hd.
    pose proof (pow2_ge_0 (h / 100 - ideal_humidity i / 100)) as Hh.
    pose proof (pow2_ge_0 (l / 1500 - ideal_light i / 1500)) as Hl.
    pose proof (pow2_ge_0 (m / 900 - ideal_moisture i / 900)) as Hm.
    apply sqrt_eq_0 in Hd; [|lra].
    assert ((h / 100 - ideal_humidity i / 100) ^ 2 = 0) as H1 by lra.
    assert ((l / 1500 - ideal_light i / 1500) ^ 2 = 0) as H2 by lra.
    assert ((m / 900 - ideal_moisture i / 900) ^ 2 = 0) as H3 by lra.
    rewrite <- Rsqr_pow2 in H1, H2, H3.
    apply Rsqr_eq_0 in H1, H2, H3. lra.
  - intros (-> & -> & ->).
    replace (_ + _ + _) with 0 by lra. apply sqrt_0.
Qed.

Lemma spec_distance_nonneg (h l m : R) (i : ideal) : 0 <= spec_distance h l m i.
Proof. apply sqrt_pos. Qed.

(** X2. The heuristic confidence is 100 at the ideal point of the class and
    nowhere else. *)
Theorem X2_confidence_full_at_ideal_only :
  forall (h l m : R) (p : Z) (i : ideal),
    ideal_conditions !! p = Some i ->
    (calculate_confidence h l m p = Ret 100
     <-> h = ideal_humidity i /\ l = ideal_light i /\ m = ideal_moisture i).
Proof.
  intros h l m p i Hi.
  destruct (confidence_of_ideal h l m p i Hi) as [-> _].
  rewrite <- spec_distance_zero.
  pose proof (spec_distance_nonneg h l m i) as Hd.
  unfold spec_confidence, clamp, Rmax, Rmin.
  split.
  - intros [= Hc]. revert Hc. repeat destruct (Rle_dec _ _); lra.
  - intros ->. f_equal. repeat destruct (Rle_dec _ _); lra.
Qed.

Lemma X2_witness_healthy_ideal :
  calculate_confidence 70 500 650 0 = Ret 100
  <-> 70 = 70 /\ 500 = 500 /\ 650 = 650.
Proof.
  apply (X2_confidence_full_at_ideal_only 70 500 650 0
           {| ideal_humidity := 70; ideal_light := 500; ideal_moisture := 650 |}).
  reflexivity.
Defined.

Lemma spec_distance_lower (h l m : R) (i : ideal) (d : R) :
  0 <= d ->
  d <= Rabs (h - ideal_humidity i) / 100
  \/ d <= Rabs (l - ideal_light i) / 1500
  \/ d <= Rabs (m - ideal_moisture i) / 900 ->
  d <= spec_distance h l m i.
Proof.
  intros Hd Hor. unfold spec_distance.
  rewrite <- (sqrt_pow2 d Hd). apply sqrt_le_1_alt.
  pose proof (pow2_abs (h - ideal_humidity i)) as Hh.
  pose proof (pow2_abs (l - ideal_light i)) as Hl.
  pose proof (pow2_abs (m - ideal_moisture i)) as Hm.
  pose proof (Rabs_pos (h - ideal_humidity i)).
  pose proof (Rabs_pos (l - ideal_light i)).
  pose proof (Rabs_pos (m - ideal_moisture i)).
  destruct Hor as [Ho|[Ho|Ho]]; nra.
Qed.

(** X3. The heuristic confidence is at its floor 50 as soon as one channel
    is a quarter of its scale away from the ideal of the class: 25 for
    humidity, 375 for light, 225 for moisture. *)
Theorem X3_confidence_floor :
  forall (h l m : R) (p : Z) (i : ideal),
    ideal_conditions !! p = Some i ->
    25 <= Rabs (h - ideal_humidity i)
    \/ 375 <= Rabs (l - ideal_light i)
    \/ 225 <= Rabs (m - ideal_moisture i) ->
    calculate_confidence h l m p = Ret 50.
Proof.
  intros h l m p i Hi Hfar.
  destruct (confidence_of_ideal h l m p i Hi) as [-> _].
  assert (1 / 4 <= spec_distance h l m i) as Hd.
  { apply spec_distance_lower; [lra|]. destruct Hfar as [?|[?|?]]; lra. }
  f_equal. unfold spec_confidence, clamp, Rmax, Rmin.
  repeat destruct (Rle_dec _ _); lra.
Qed.

Lemma Rabs_25 : 25 <= Rabs (95 - 70).
Proof. rewrite Rabs_pos_eq; lra. Qed.

Lemma X3_witness_humid :
  calculate_confidence 95 500 650 0 = Ret 50.
Proof.
  apply (X3_confidence_floor 95 500 650 0
           {| ideal_humidity := 70; ideal_light := 500; ideal_moisture := 650 |}).
  - reflexivity.
  - left. exact Rabs_25.
Defined.

Lemma div_nonneg (a w : R) : 0 <= a -> 0 < w -> 0 <= a / w.
Proof.
  intros Ha Hw. unfold Rdiv. apply Rmult_le_pos; [done|].
  left. by apply Rinv_0_lt_compat.
Qed.

(** The closeness of one channel to its optimum: [clamp01 (1 - |x| / w)]. *)
Lemma closeness_range (x w : R) : 0 <= clamp01 (1 - Rabs x / w) <= 1.
Proof. apply clamp_bounds. lra. Qed.

Lemma closeness_one (x w : R) :
  0 < w -> (clamp01 (1 - Rabs x / w) = 1 <-> x = 0).
Proof.
  intros Hw. pose proof (Rabs_pos x) as Hx.
  assert (0 <= Rabs x / w) as Ht by (apply div_nonneg; lra).
  split.
  - intros Hc. assert (Rabs x / w = 0) as Hz.
    { revert Hc. unfold clamp01, clamp, Rmax, Rmin.
      repeat destruct (Rle_dec _ _); lra. }
    assert (Rabs x = 0) as Hx0.
    { replace (Rabs x) with (Rabs x / w * w) by (field; lra). rewrite Hz. lra. }
    revert Hx0. unfold Rabs. destruct (Rcase_abs x); lra.
  - intros ->. rewrite Rabs_R0. unfold Rdiv. rewrite Rmult_0_l.
    unfold clamp01. rewrite clamp_inside; lra.
Qed.

Lemma closeness_zero (x w : R) :
  0 < w -> (clamp01 (1 - Rabs x / w) = 0 <-> w <= Rabs x).
Proof.
  intros Hw.
  assert (Rabs x = Rabs x / w * w) as Hx by (field; lra).
  unfold clamp01, clamp, Rmax, Rmin. split.
  - intros Hc. assert (1 <= Rabs x / w) as H1.
    { revert Hc. repeat destruct (Rle_dec _ _); lra. }
    nra.
  - intros Hge. assert (1 <= Rabs x / w) as H1.
    { apply (Rmult_le_reg_r w); [done|]. lra. }
    repeat destruct (Rle_dec _ _); lra.
Qed.

Lemma closeness_mono (x1 x2 w : R) :
  0 < w -> Rabs x1 <= Rabs x2 ->
  clamp01 (1 - Rabs x2 / w) <= clamp01 (1 - Rabs x1 / w).
Proof.
  intros Hw Hle.
  assert (Rabs x1 / w <= Rabs x2 / w) as Hd.
  { apply (Rmult_le_reg_r w); [done|].
    replace (Rabs x1 / w * w) with (Rabs x1) by (field; lra).
    replace (Rabs x2 / w * w) with (Rabs x2) by (field; lra). done. }
  unfold clamp01, clamp, Rmax, Rmin. repeat destruct (Rle_dec _ _); lra.
Qed.

Lemma score_unclamped (h l m : R) :
  calculate_health_score h l m
  = 10 * (0.3 * clamp01 (1 - Rabs (h - 70) / 50)
        + 0.3 * clamp01 (1 - Rabs (l - 500) / 700)
        + 0.4 * clamp01 (1 - Rabs (m - 650) / 450)).
Proof.
  rewrite calculate_health_score_spec. unfold spec_score.
  pose proof (closeness_range (h - 70) 50).
  pose proof (closeness_range (l - 500) 700).
  pose proof (closeness_range (m - 650) 450).
  apply clamp_inside. lra.
Qed.

(** X4. The score 10 is reached at (70, 500, 650) and at no other reading. *)
Theorem X4_score_maximum_unique :
  forall h l m : R,
    calculate_health_score h l m = 10 <-> h = 70 /\ l = 500 /\ m = 650.
Proof.
  intros h l m. rewrite score_unclamped.
  pose proof (closeness_range (h - 70) 50) as Hh.
  pose proof (closeness_range (l - 500) 700) as Hl.
  pose proof (closeness_range (m - 650) 450) as Hm.
  pose proof (closeness_one (h - 70) 50) as Oh.
  pose proof (closeness_one (l - 500) 700) as Ol.
  pose proof (closeness_one (m - 650) 450) as Om.
  split.
  - intros Hs.
    assert (clamp01 (1 - Rabs (h - 70) / 50) = 1) as H1 by lra.
    assert (clamp01 (1 - Rabs (l - 500) / 700) = 1) as H2 by lra.
    assert (clamp01 (1 - Rabs (m - 650) / 450) = 1) as H3 by lra.
    apply Oh in H1; [|lra]. apply Ol in H2; [|lra]. apply Om in H3; [|lra]. lra.
  - intros (-> & -> & ->).
    assert (clamp01 (1 - Rabs (70 - 70) / 50) = 1) as -> by (apply Oh; lra).
    assert (clamp01 (1 - Rabs (500 - 500) / 700) = 1) as -> by (apply Ol; lra).
    assert (clamp01 (1 - Rabs (650 - 650) / 450) = 1) as -> by (apply Om; lra).
    lra.
Qed.

(** X5. The score is 0 exactly when every channel is at least its half-width
    away from its optimum: 50 for humidity, 700 for light, 450 for
    moisture. *)
Theorem X5_score_zero :
  forall h l m : R,
    calculate_health_score h l m = 0
    <-> 50 <= Rabs (h - 70) /\ 700 <= Rabs (l - 500) /\ 450 <= Rabs (m - 650).
Proof.
  intros h l m. rewrite score_unclamped.
  pose proof (closeness_range (h - 70) 50) as Hh.
  pose proof (closeness_range (l - 500) 700) as Hl.
  pose proof (closeness_range (m - 650) 450) as Hm.
  rewrite <- (closeness_zero (h - 70) 50), <- (closeness_zero (l - 500) 700),
    <- (closeness_zero (m - 650) 450) by lra.
  split; [intros Hs; lra|intros (-> & -> & ->); lra].
Qed.

(** X6. A reading that is at least as close to the optimum on each channel
    scores at least as much. *)
Theorem X6_score_monotone :
  forall h1 l1 m1 h2 l2 m2 : R,
    Rabs (h1 - 70) <= Rabs (h2 - 70) ->
    Rabs (l1 - 500) <= Rabs (l2 - 500) ->
    Rabs (m1 - 650) <= Rabs (m2 - 650) ->
    calculate_health_score h2 l2 m2 <= calculate_health_score h1 l1 m1.
Proof.
  intros h1 l1 m1 h2 l2 m2 Hh Hl Hm. rewrite !score_unclamped.
  pose proof (closeness_mono _ _ 50 ltac:(lra) Hh).
  pose proof (closeness_mono _ _ 700 ltac:(lra) Hl).
  pose proof (closeness_mono _ _ 450 ltac:(lra) Hm).
  lra.
Qed.

Lemma optimum_is_closest (x c : R) : Rabs (c - c) <= Rabs (x - c).
Proof.
  replace (c - c) with 0 by lra. rewrite Rabs_R0. apply Rabs_pos.
Qed.

Lemma X6_witness_optimum_above :
  calculate_health_score 60 400 600 <= calculate_health_score 70 500 650.
Proof.
  apply (X6_score_monotone 70 500 650 60 400 600); apply optimum_is_closest.
Defined.

Lemma closeness_lower (x w b : R) :
  0 < w -> 0 <= b -> Rabs x <= b -> 1 - b / w <= clamp01 (1 - Rabs x / w).
Proof.
  intros Hw Hb Hx.
  assert (Rabs x / w <= b / w) as Hd.
  { apply (Rmult_le_reg_r w); [done|].
    replace (Rabs x / w * w) with (Rabs x) by (field; lra).
    replace (b / w * w) with b by (field; lra). done. }
  assert (0 <= Rabs x / w).
  { apply div_nonneg; [apply Rabs_pos|done]. }
  unfold clamp01, clamp, Rmax, Rmin. repeat destruct (Rle_dec _ _); lra.
Qed.

Lemma Rabs_le_iff (x b : R) : - b <= x <= b -> Rabs x <= b.
Proof. intros Hx. unfold Rabs. destruct (Rcase_abs x); lra. Qed.

Lemma training_label_healthy (h l m : R) :
  training_label h l m = HEALTHY <-> healthy_range h l m.
Proof.
  unfold HEALTHY.
  destruct (training_label_cases h l m)
    as [[H0 ->]|[(H0 & H1 & ->)|[(H0 & H1 & H2 & ->)|(H0 & H1 & H2 & ->)]]];
    split; intros; try done; try (exfalso; lia).
Qed.

Lemma training_label_needs_water (h l m : R) :
  training_label h l m = NEEDS_WATER -> m < 400.
Proof.
  unfold NEEDS_WATER.
  destruct (training_label_cases h l m)
    as [[H0 ->]|[(H0 & H1 & ->)|[(H0 & H1 & H2 & ->)|(H0 & H1 & H2 & ->)]]];
    intros; try done; exfalso; lia.
Qed.

Lemma training_label_optimum : training_label 70 500 650 = HEALTHY.
Proof. apply training_label_healthy. unfold healthy_range. lra. Qed.

Lemma training_label_dry : training_label 70 500 300 = NEEDS_WATER.
Proof.
  unfold NEEDS_WATER.
  destruct (training_label_cases 70 500 300)
    as [[H0 _]|[(_ & _ & ->)|[(_ & H1 & _)|(_ & H1 & _)]]];
    [unfold healthy_range in H0; lra|done|lra|lra].
Qed.

(** X7. A sample that the training rule labels Healthy scores at least
    712/105 (about 6.78), and (80, 800, 500) is labelled Healthy and scores
    exactly that. *)
Theorem X7_healthy_label_score :
  (forall h l m : R,
      training_label h l m = HEALTHY -> 712 / 105 <= calculate_health_score h l m)
  /\ training_label 80 800 500 = HEALTHY
  /\ calculate_health_score 80 800 500 = 712 / 105.
Proof.
  split; [|split].
  - intros h l m Hlab. apply training_label_healthy in Hlab as (Hh & Hl & Hm).
    rewrite score_unclamped.
    assert (Rabs (h - 70) <= 10) as Ah by (apply Rabs_le_iff; lra).
    assert (Rabs (l - 500) <= 300) as Al by (apply Rabs_le_iff; lra).
    assert (Rabs (m - 650) <= 150) as Am by (apply Rabs_le_iff; lra).
    pose proof (closeness_lower (h - 70) 50 10 ltac:(lra) ltac:(lra) Ah).
    pose proof (closeness_lower (l - 500) 700 300 ltac:(lra) ltac:(lra) Al).
    pose proof (closeness_lower (m - 650) 450 150 ltac:(lra) ltac:(lra) Am).
    lra.
  - apply training_label_healthy. unfold healthy_range. lra.
  - rewrite score_unclamped.
    replace (Rabs (80 - 70)) with 10 by (rewrite Rabs_pos_eq; lra).
    replace (Rabs (800 - 500)) with 300 by (rewrite Rabs_pos_eq; lra).
    replace (Rabs (500 - 650)) with 150
      by (rewrite <- Rabs_Ropp, Rabs_pos_eq; lra).
    unfold clamp01. rewrite !clamp_inside by lra. lra.
Qed.

Lemma training_label_edge : training_label 80 800 500 = HEALTHY.
Proof. apply training_label_healthy. unfold healthy_range. lra. Qed.

Lemma X7_witness_edge_sample : 712 / 105 <= calculate_health_score 80 800 500.
Proof.
  apply (proj1 X7_healthy_label_score 80 800 500). exact training_label_edge.
Defined.

Lemma training_label_nearly_dry : training_label 70 500 399 = NEEDS_WATER.
Proof.
  unfold NEEDS_WATER.
  destruct (training_label_cases 70 500 399)
    as [[H0 _]|[(_ & _ & ->)|[(_ & H1 & _)|(_ & H1 & _)]]];
    [unfold healthy_range in H0; lra|done|lra|lra].
Qed.

(** X8. A sample that the training rule labels Needs Water scores less than
    70/9 (about 7.78).  The label and the score are computed apart: (70, 500,
    399) is labelled Needs Water and scores more than (80, 800, 500), which
    is labelled Healthy. *)
Theorem X8_needs_water_label_score :
  (forall h l m : R,
      training_label h l m = NEEDS_WATER -> calculate_health_score h l m < 70 / 9)
  /\ (training_label 70 500 399 = NEEDS_WATER
      /\ training_label 80 800 500 = HEALTHY
      /\ calculate_health_score 80 800 500 < calculate_health_score 70 500 399).
Proof.
  split.
  - intros h l m Hlab. apply training_label_needs_water in Hlab.
    rewrite score_unclamped.
    pose proof (closeness_range (h - 70) 50) as Hh.
    pose proof (closeness_range (l - 500) 700) as Hl.
    assert (clamp01 (1 - Rabs (m - 650) / 450) < 4 / 9) as Hm.
    { assert (250 < Rabs (m - 650)) as Ha.
      { unfold Rabs. destruct (Rcase_abs (m - 650)); lra. }
      unfold clamp01, clamp, Rmax, Rmin. repeat destruct (Rle_dec _ _); lra. }
    lra.
  - split; [exact training_label_nearly_dry|]. split; [exact training_label_edge|].
    rewrite !score_unclamped.
    replace (Rabs (80 - 70)) with 10 by (rewrite Rabs_pos_eq; lra).
    replace (Rabs (800 - 500)) with 300 by (rewrite Rabs_pos_eq; lra).
    replace (Rabs (500 - 650)) with 150
      by (rewrite <- Rabs_Ropp, Rabs_pos_eq; lra).
    replace (Rabs (70 - 70)) with 0 by (rewrite Rabs_pos_eq; lra).
    replace (Rabs (500 - 500)) with 0 by (rewrite Rabs_pos_eq; lra).
    replace (Rabs (399 - 650)) with 251
      by (rewrite <- Rabs_Ropp, Rabs_pos_eq; lra).
    unfold clamp01. rewrite !clamp_inside by lra. lra.
Qed.

Lemma X8_witness_dry_sample : calculate_health_score 70 500 300 < 70 / 9.
Proof.
  apply (proj1 X8_needs_water_label_score 70 500 300). exact training_label_dry.
Defined.

(** ** Further properties of the classification and the recommendations *)

Lemma py_index_labels (c : Z) :
  if decide (-4 <= c <= 3)%Z
  then exists label, py_index init_labels c = Ret label /\ label ∈ init_labels
  else py_index init_labels c = Raise IndexError.
Proof.
  case_decide as Hc.
  - assert (c = -4 \/ c = -3 \/ c = -2 \/ c = -1
            \/ c = 0 \/ c = 1 \/ c = 2 \/ c = 3)%Z as Hcases by lia.
    destruct Hcases as [->|[->|[->|[->|[->|[->|[->| ->]]]]]]];
      (eexists; split; [reflexivity|]);
      unfold init_labels; rewrite !elem_of_cons; tauto.
  - unfold py_index. change (Z.of_nat (length init_labels)) with 4%Z.
    destruct (Z.ltb_spec c 0) as [Hneg|Hpos].
    + destruct (Z.ltb_spec (c + 4) 0) as [_|Hge]; [done|lia].
    + destruct (Z.ltb_spec c 0) as [?|_]; [lia|].
      rewrite lookup_ge_None_2; [done|]. simpl. lia.
Qed.

(** X9. A model without [predict_proba] that predicts the class [c]: for [c]
    from 0 to 3 [predict_health] gives the label of [c], the heuristic
    confidence (in [50,100]) and the health score of the reading; for any
    other [c], also [-1], it gives the sentinel. *)
Theorem X9_predict_health_heuristic :
  forall (mdl : classifier) (h l m : R) (c : Z) (rest : list Z),
    predict mdl [[h; l; m]] = Ret (c :: rest) ->
    predict_proba mdl = None ->
    if decide (0 <= c <= 3)%Z
    then exists label confidence,
        predict_health (predictor_with (Some mdl)) h l m
        = Ret (label, confidence, calculate_health_score h l m)
        /\ py_index init_labels c = Ret label
        /\ calculate_confidence h l m c = Ret confidence
        /\ 50 <= confidence <= 100
    else predict_health (predictor_with (Some mdl)) h l m = Ret sentinel.
Proof.
  intros mdl h l m c rest Hpred Hproba.
  unfold predict_health, predict_health_body. simpl. rewrite Hpred. simpl.
  rewrite Hproba.
  pose proof (ideal_conditions_dom c) as Hdom.
  case_decide as Hc.
  - apply Hdom in Hc as Hi. destruct Hi as [i Hi].
    destruct (confidence_of_ideal h l m c i Hi) as [Hconf Hb].
    pose proof (py_index_labels c) as Hlab.
    destruct (decide (-4 <= c <= 3)%Z) as [_|Hn]; [|lia].
    destruct Hlab as (label & Hlab & _).
    exists label, (spec_confidence h l m i).
    change (py_index (labels (predictor_with (Some mdl))) c)
      with (py_index init_labels c).
    rewrite Hconf. simpl. rewrite Hlab. done.
  - unfold calculate_confidence.
    destruct (ideal_conditions !! c) as [i|] eqn:Hi; [|done].
    exfalso. apply Hc, Hdom. eauto.
Qed.

Lemma fold_left_Rmax_range (lo hi : R) (ps : list R) (p0 : R) :
  lo <= p0 <= hi -> Forall (fun p => lo <= p <= hi) ps ->
  lo <= fold_left Rmax ps p0 <= hi.
Proof.
  intros H0 Hps. revert p0 H0.
  induction Hps as [|p ps Hp _ IH]; intros p0 H0; [done|].
  simpl. apply IH. unfold Rmax. destruct (Rle_dec p0 p); lra.
Qed.

(** X10. A model with [predict_proba] that predicts the class [c] and gives
    the probabilities [p0 :: ps]: for [c] from -4 to 3 [predict_health] gives
    a label (a negative class counts from the end of [labels]), 100 times the
    largest probability and the health score of the reading; for any other
    [c] it gives the sentinel.  Probabilities in [0,1] give a confidence in
    [0,100]. *)
Theorem X10_predict_health_probabilities :
  forall (mdl : classifier) (proba : list (list R) -> result (list (list R)))
         (h l m : R) (c : Z) (rest : list Z) (p0 : R) (ps : list R)
         (rows : list (list R)),
    predict mdl [[h; l; m]] = Ret (c :: rest) ->
    predict_proba mdl = Some proba ->
    proba [[h; l; m]] = Ret ((p0 :: ps) :: rows) ->
    Forall (fun p => 0 <= p <= 1) (p0 :: ps) ->
    0 <= fold_left Rmax ps p0 * 100 <= 100
    /\ if decide (-4 <= c <= 3)%Z
       then exists label,
           predict_health (predictor_with (Some mdl)) h l m
           = Ret (label, fold_left Rmax ps p0 * 100, calculate_health_score h l m)
           /\ py_index init_labels c = Ret label
       else predict_health (predictor_with (Some mdl)) h l m = Ret sentinel.
Proof.
  intros mdl proba h l m c rest p0 ps rows Hpred Hproba Hrows Hps.
  split.
  { apply Forall_cons in Hps as [H0 Hps].
    pose proof (fold_left_Rmax_range 0 1 ps p0 H0 Hps). lra. }
  unfold predict_health, predict_health_body. simpl. rewrite Hpred. simpl.
  rewrite Hproba. simpl. rewrite Hrows. simpl.
  change (py_index (labels (predictor_with (Some mdl))) c)
    with (py_index init_labels c).
  pose proof (py_index_labels c) as Hlab.
  case_decide as Hc.
  - destruct Hlab as (label & Hlab & _). exists label. by rewrite Hlab.
  - by rewrite Hlab.
Qed.

Lemma X9_witness_class_2 :
  if decide (0 <= 2 <= 3)%Z
  then exists label confidence,
      predict_health
        (predictor_with (Some {| predict := fun _ => Ret [2%Z]; predict_proba := None |}))
        35 1200 500
      = Ret (label, confidence, calculate_health_score 35 1200 500)
      /\ py_index init_labels 2 = Ret label
      /\ calculate_confidence 35 1200 500 2 = Ret confidence
      /\ 50 <= confidence <= 100
  else predict_health
         (predictor_with (Some {| predict := fun _ => Ret [2%Z]; predict_proba := None |}))
         35 1200 500 = Ret sentinel.
Proof.
  apply (X9_predict_health_heuristic
           {| predict := fun _ => Ret [2%Z]; predict_proba := None |}
           35 1200 500 2 []); reflexivity.
Defined.

Lemma certain_probability : Forall (fun p => 0 <= p <= 1) [1].
Proof. constructor; [lra|constructor]. Qed.

Lemma X10_witness_constant_model :
  0 <= fold_left Rmax [] 1 * 100 <= 100
  /\ if decide (-4 <= -1 <= 3)%Z
     then exists label,
         predict_health (predictor_with (Some (constant_model (-1) [1]))) 70 500 650
         = Ret (label, fold_left Rmax [] 1 * 100, calculate_health_score 70 500 650)
         /\ py_index init_labels (-1) = Ret label
     else predict_health (predictor_with (Some (constant_model (-1) [1]))) 70 500 650
          = Ret sentinel.
Proof.
  apply (X10_predict_health_probabilities (constant_model (-1) [1])
           (fun _ => Ret [[1]]) 70 500 650 (-1) [] 1 [] []);
    [reflexivity|reflexivity|reflexivity|exact certain_probability].
Defined.

(** X11. [get_recommendations] raises only for Needs Water on a reading
    without "moisture" and for Needs Shade on a reading without "light", with
    the [KeyError] of that key; in every other case it returns three or four
    strings. *)
Theorem X11_recommendations_missing_key :
  forall (label : string) (d : gmap string R),
    match get_recommendations label d with
    | Raise e =>
        (label = "Needs Water"%string /\ d !! "moisture"%string = None
         /\ e = KeyError "moisture")
        \/ (label = "Needs Shade"%string /\ d !! "light"%string = None
            /\ e = KeyError "light")
    | Ret recs =>
        (3 <= length recs <= 4)%nat
        /\ (if decide (label = "Needs Water"%string)
            then is_Some (d !! "moisture"%string) else True)
        /\ (if decide (label = "Needs Shade"%string)
            then is_Some (d !! "light"%string) else True)
    end.
Proof.
  intros label d. unfold get_recommendations, py_getitem.
  destruct (decide (label = "Needs Water"%string)) as [->|Hw].
  { destruct (d !! "moisture"%string) as [v|] eqn:Hm; simpl.
    - split; [lia|]. split; [eauto|done].
    - left. done. }
  destruct (decide (label = "Needs Shade"%string)) as [->|Hs].
  { destruct (d !! "light"%string) as [v|] eqn:Hl; simpl.
    - split; [lia|]. split; [done|eauto].
    - right. done. }
  destruct (decide (label = "Needs Attention"%string)); simpl; (split; [lia|done]).
Qed.

(** X12. Of the reading, [get_recommendations] uses the moisture and the
    light only: two readings that agree on both get the same answer for
    every label. *)
Theorem X12_recommendations_read_two_keys :
  forall (label : string) (d1 d2 : gmap string R),
    d1 !! "moisture"%string = d2 !! "moisture"%string ->
    d1 !! "light"%string = d2 !! "light"%string ->
    get_recommendations label d1 = get_recommendations label d2.
Proof.
  intros label d1 d2 Hm Hl. unfold get_recommendations, py_getitem.
  by rewrite Hm, Hl.
Qed.

Lemma X12_witness_extra_entries :
  get_recommendations "Needs Water" {[ "moisture"%string := 350 ]}
  = get_recommendations "Needs Water"
      {[ "moisture"%string := 350; "co2"%string := 400 ]}.
Proof.
  apply (X12_recommendations_read_two_keys "Needs Water"
           {[ "moisture"%string := 350 ]}
           {[ "moisture"%string := 350; "co2"%string := 400 ]});
    reflexivity.
Defined.

(** ** The dashboard *)

(** X13. Of the water system, the climate control and the alert system at
    most one is active, and each exactly on its own label; on Healthy and on
    the sentinel Unknown all three are idle. *)
Theorem X13_one_system_active :
  forall prediction : string,
    (water_status prediction = "Active"%string
     <-> prediction = "Needs Water"%string)
    /\ (climate_status prediction = "Active"%string
        <-> prediction = "Needs Shade"%string)
    /\ (alert_status prediction = "Alert"%string
        <-> prediction = "Needs Attention"%string)
    /\ ~ (water_status prediction = "Active"%string
          /\ climate_status prediction = "Active"%string)
    /\ ~ (water_status prediction = "Active"%string
          /\ alert_status prediction = "Alert"%string)
    /\ ~ (climate_status prediction = "Active"%string
          /\ alert_status prediction = "Alert"%string).
Proof.
  intros prediction. unfold water_status, climate_status, alert_status.
  repeat case_decide; subst; repeat split; intros; try done;
    try (intros [? ?]; done).
Qed.

Lemma py_replace_char_length (old new : Ascii.ascii) (s : string) :
  String.length (py_replace_char old new s) = String.length s.
Proof. induction s as [|c s IH]; simpl; [done|by rewrite IH]. Qed.

Lemma py_replace_char_absent (old new : Ascii.ascii) (s : string) :
  old <> new -> old ∉ String.list_ascii_of_string (py_replace_char old new s).
Proof.
  intros Hne. induction s as [|c s IH]; simpl.
  - apply not_elem_of_nil.
  - apply not_elem_of_cons. split; [|done].
    destruct (Ascii.eqb_spec c old) as [->|Hc]; congruence.
Qed.

Lemma list_ascii_of_string_app (s1 s2 : string) :
  String.list_ascii_of_string (s1 +:+ s2)
  = String.list_ascii_of_string s1 ++ String.list_ascii_of_string s2.
Proof. induction s1 as [|c s1 IH]; simpl; [done|by rewrite IH]. Qed.

Lemma string_length_app (s1 s2 : string) :
  String.length (s1 +:+ s2) = (String.length s1 + String.length s2)%nat.
Proof. induction s1 as [|c s1 IH]; simpl; [done|by rewrite IH]. Qed.

(** X14. The name of the exported file has no space, whatever the location,
    and is 14 characters longer than the location. *)
Theorem X14_export_file_name :
  forall selected_location : string,
    (" "%char ∉ String.list_ascii_of_string (export_file_name selected_location))
    /\ String.length (export_file_name selected_location)
       = (14 + String.length selected_location)%nat.
Proof.
  intros loc. unfold export_file_name. split.
  - rewrite !list_ascii_of_string_app, !not_elem_of_app. repeat split.
    + simpl. rewrite !not_elem_of_cons. repeat split; try done.
      apply not_elem_of_nil.
    + by apply py_replace_char_absent.
    + simpl. rewrite !not_elem_of_cons. repeat split; try done.
      apply not_elem_of_nil.
  - rewrite !string_length_app, py_replace_char_length. simpl. lia.
Qed.

(** ** Further properties of the simulator and the generators *)

Lemma returns_mapM_inv {S A B} (f : A -> ST S B) (P : A -> B -> Prop)
    (Inv : S -> Prop) (l : list A) :
  (forall x s, Inv s -> returns (f x) s (fun y s' => P x y /\ Inv s')) ->
  forall s, Inv s -> returns (mapM f l) s (fun ys s' => Forall2 P l ys /\ Inv s').
Proof.
  intros Hf. induction l as [|x l IH]; intros s Hs.
  - apply returns_ret. split; [constructor|done].
  - change (mapM f (x :: l)) with (y ← f x; k ← mapM f l; mret (y :: k)).
    apply returns_bind. destruct (Hf x s Hs) as (y & s1 & Hy & HP & H1).
    exists y, s1. split; [done|].
    apply returns_bind. destruct (IH s1 H1) as (ys & s2 & Hys & HPs & H2).
    exists ys, s2. split; [done|].
    apply returns_ret. split; [by constructor|done].
Qed.

Lemma returns_uniform_in (low high : R) (w : world) (Q : R -> world -> Prop) :
  sample_in_unit -> low < high ->
  (forall x g, low <= x < high -> Q x (set_np_random g w)) ->
  returns (np_random_uniform low high) w Q.
Proof.
  intros Hunit Hlt HQ. unfold returns, np_random_uniform.
  pose proof (Hunit (np_random w)) as Hu.
  destruct (np_random_sample (np_random w)) as [u g]. simpl in Hu.
  eexists _, _. split; [done|]. apply HQ. nra.
Qed.

Lemma returns_random (w : world) (Q : R -> world -> Prop) :
  sample_in_unit ->
  (forall u g, 0 <= u < 1 -> Q u (set_np_random g w)) ->
  returns np_random_random w Q.
Proof.
  intros Hunit HQ. unfold returns, np_random_random.
  pose proof (Hunit (np_random w)) as Hu.
  destruct (np_random_sample (np_random w)) as [u g]. simpl in Hu.
  eexists _, _. split; [done|]. by apply HQ.
Qed.

Lemma returns_randint_in (low high : Z) (w : world) (Q : Z -> world -> Prop) :
  randint_in_range -> (low < high)%Z ->
  (forall k g, (low <= k < high)%Z -> Q k (set_np_random g w)) ->
  returns (np_random_randint low high) w Q.
Proof.
  intros Hrange Hlt HQ. unfold returns, np_random_randint.
  pose proof (Hrange low high (np_random w) Hlt) as Hk.
  destruct (np_randint low high (np_random w)) as [k g]. simpl in Hk.
  eexists _, _. split; [done|]. by apply HQ.
Qed.

(** X15. With uniform draws in [0,1), the CO2 absorption of every reading
    lies in [6/7, 25): the efficiency is at least 2/35 on clamped humidity and
    moisture and at most 1, and the rate lies in [15,25). *)
Theorem X15_co2_absorption_range :
  forall (last : R) (location : string) (w : world),
    sample_in_unit ->
    returns (get_current_readings
               {| base_values := init_base_values; last_update := last |} location) w
            (fun r _ => 6 / 7 <= reading_co2_absorption r < 25).
Proof.
  intros last location w Hunit. unfold get_current_readings.
  do 23 run_step.
  apply returns_uniform_in; [done|lra|]. intros rate g4 Hrate.
  apply returns_ret. cbn [reading_co2_absorption].
  match goal with
  | |- _ <= py_min _ (?H / 100 * ?M / 700) * _ < _ =>
      assert (20 <= H <= 95) as Hh by (apply py_clamp_bounds; lra);
      assert (200 <= M <= 900) as Hm by (apply py_clamp_bounds; lra);
      generalize dependent H; generalize dependent M
  end.
  intros M HM H HH. rewrite py_min_Rmin.
  assert (2 / 35 <= H / 100 * M / 700) as Hlow by nra.
  unfold Rmin. destruct (Rle_dec _ _); nra.
Qed.

Lemma returns_both_ret {S A B} (a : A) (b : B) (s : S) (Q : A -> B -> S -> Prop) :
  Q a b s -> returns_both (mret a) (mret b) s Q.
Proof. intros HQ. by exists a, b, s. Qed.

Lemma returns_both_bind {S A B C} (m : ST S A) (f1 : A -> ST S B) (f2 : A -> ST S C)
    (s : S) (Q : B -> C -> S -> Prop) :
  returns m s (fun a s' => returns_both (f1 a) (f2 a) s' Q) ->
  returns_both (m ≫= f1) (m ≫= f2) s Q.
Proof.
  intros (a & s' & Hm & b & c & s'' & H1 & H2 & HQ). exists b, c, s''.
  unfold mbind, ST_bind. rewrite Hm. done.
Qed.

(** X16. The location moves the humidity, the light and the moisture only:
    for two locations, from the same world, both readings are returned, with
    the same CO2, temperature and timestamp, and the two calls leave the
    same world. *)
Theorem X16_location_channels :
  forall (last : R) (location1 location2 : string) (w : world),
    returns_both
      (get_current_readings
         {| base_values := init_base_values; last_update := last |} location1)
      (get_current_readings
         {| base_values := init_base_values; last_update := last |} location2)
      w
      (fun r1 r2 _ =>
         reading_co2 r1 = reading_co2 r2
         /\ reading_temperature r1 = reading_temperature r2
         /\ reading_timestamp r1 = reading_timestamp r2).
Proof.
  intros last location1 location2 w. unfold get_current_readings.
  repeat (apply returns_both_bind;
          first [ apply returns_now
                | apply returns_normal; intros ? ?
                | apply returns_uniform; intros ? ?
                | eapply returns_lift; [reflexivity|] ];
          cbv beta iota zeta).
  by apply returns_both_ret.
Qed.

(** X17. With uniform draws in [0,1), [simulate_sensor_failure] never fails
    on a probability of 0 or less and always fails on a probability of 1 or
    more, whatever the sensor type; the clock, the model file and the disk
    are left as they are. *)
Theorem X17_sensor_failure_extremes :
  forall (self : SensorSimulator) (sensor_type : string) (probability : R)
         (w : world),
    sample_in_unit ->
    returns (simulate_sensor_failure self sensor_type probability) w
            (fun status w' =>
               (if Rle_dec probability 0 then status = SensorOk else True)
               /\ (if Rle_dec 1 probability then status = SensorFailure else True)
               /\ same_disk w w').
Proof.
  intros self sensor_type probability w Hunit. unfold simulate_sensor_failure.
  apply returns_bind, returns_random; [done|]. intros u g Hu.
  unfold Rltb. destruct (Rlt_dec u probability) as [Hlt|Hge];
    apply returns_ret; (split; [|split; [|done]]);
    destruct (Rle_dec _ _); try done; lra.
Qed.

Lemma date_days_before (now k : Z) :
  date (now - timedelta_days k)%Z = (date now - k)%Z.
Proof.
  unfold date, timedelta_days.
  replace (now - k * 86400000000)%Z with (now + (- k) * 86400000000)%Z by lia.
  rewrite Z.div_add by lia. lia.
Qed.

Lemma weekly_row_returns (day : Z) (w : world) :
  sample_in_unit -> randint_in_range ->
  returns (weekly_row day) w
          (fun row w' => weekly_row_ok (clock w) day row
                         /\ clock w' = (clock w + loop_time day)%Z).
Proof.
  intros Hunit Hrange. unfold weekly_row.
  apply returns_bind, returns_now. cbv beta zeta.
  apply returns_bind, returns_uniform_in; [done|lra|]. intros h g1 Hh.
  apply returns_bind, returns_uniform_in; [done|lra|]. intros l g2 Hl.
  apply returns_bind, returns_uniform_in; [done|lra|]. intros m g3 Hm.
  apply returns_bind, returns_randint_in; [done|lia|]. intros k g4 Hk.
  apply returns_bind. eexists tt, _. split; [reflexivity|].
  apply returns_ret. split; [|done].
  unfold weekly_row_ok. simpl. by rewrite date_days_before.
Qed.

Lemma weekly_rows_returns (n a : nat) (start : datetime) (w : world) :
  sample_in_unit -> randint_in_range ->
  clock w = (start + time_before a)%Z ->
  returns (mapM weekly_row (map Z.of_nat (seq a n))) w
          (fun rows _ =>
             Forall2 (fun (k : nat) row =>
                        weekly_row_ok (start + time_before k)%Z (Z.of_nat k) row)
                     (seq a n) rows).
Proof.
  intros Hunit Hrange. revert a w. induction n as [|n IH]; intros a w Hw.
  - apply returns_ret. constructor.
  - change (mapM weekly_row (map Z.of_nat (seq a (S n))))
      with (y ← weekly_row (Z.of_nat a);
            k ← mapM weekly_row (map Z.of_nat (seq (S a) n)); mret (y :: k)).
    apply returns_bind.
    destruct (weekly_row_returns (Z.of_nat a) w Hunit Hrange)
      as (row & w1 & Hrow & Hok & Hc).
    exists row, w1. split; [done|].
    apply returns_bind.
    destruct (IH (S a) w1) as (rows & w2 & Hrows & Hall).
    { rewrite Hc, Hw. simpl. lia. }
    exists rows, w2. split; [done|].
    apply returns_ret. simpl. constructor; [by rewrite <- Hw|done].
Qed.

(** X18. With uniform draws in [0,1) and integer draws in [low, high), the
    weekly summary has seven rows, the newest first: the row k is dated k
    days before the day on which its iteration read the clock (the clock is
    read once a row, and time passes between the rows), with an average
    humidity in [60,75), light in [400,600), moisture in [550,700), and 0, 1
    or 2 health events. *)
Theorem X18_weekly_summary :
  forall (self : HistoricalDataGenerator) (w : world),
    sample_in_unit -> randint_in_range ->
    returns (generate_weekly_summary self) w
            (fun rows _ =>
               Forall2 (fun (k : nat) row =>
                          weekly_row_ok (clock w + time_before k)%Z (Z.of_nat k) row)
                       (seq 0 7) rows
               /\ length rows = 7%nat).
Proof.
  intros self w Hunit Hrange. unfold generate_weekly_summary.
  destruct (weekly_rows_returns 7 0 (clock w) w Hunit Hrange)
    as (rows & w' & Hrun & Hrows).
  { simpl. lia. }
  exists rows, w'. split; [done|]. split; [done|].
  by rewrite <- (Forall2_length _ _ _ Hrows).
Qed.

Lemma pd_date_range_hours (now hours : Z) :
  length (pd_date_range (now - timedelta_hours hours) now (timedelta_minutes 15))
  = if (0 <=? hours)%Z then Z.to_nat (4 * hours + 1) else 0%nat.
Proof.
  unfold pd_date_range, timedelta_hours, timedelta_minutes.
  destruct (Z.leb_spec 0 hours) as [Hpos|Hneg].
  - destruct (Z.ltb_spec now (now - hours * 3600000000)) as [Hlt|_]; [lia|].
    rewrite length_map, length_seq.
    replace (now - (now - hours * 3600000000))%Z
      with (4 * hours * (15 * 60000000))%Z by lia.
    rewrite Z.div_mul by lia. lia.
  - destruct (Z.ltb_spec now (now - hours * 3600000000)) as [_|Hge]; [done|lia].
Qed.

(** X19. For any [hours_back] that keeps the start of the window an instant
    that a [pd.Timestamp] can hold (outside that range the subtraction or
    [pd.date_range] raises, which the unbounded [datetime] of the model does
    not show), the historical frame has four rows an hour and one more,
    4 * hours_back + 1; for a negative [hours_back] it is empty.  Every row
    is within the channel bounds. *)
Theorem X19_historical_rows_per_hour :
  forall (hours : Z) (w : world),
    timestamp_in_range (clock w) ->
    timestamp_in_range (clock w - timedelta_hours hours)%Z ->
    returns (generate_historical_data {| hours_back := hours |}) w
            (fun rows _ =>
               length rows
               = (if (0 <=? hours)%Z then Z.to_nat (4 * hours + 1) else 0%nat)
               /\ Forall row_in_bounds rows).
Proof.
  intros hours w _ _. unfold generate_historical_data. do 2 run_step.
  cbn [hours_back].
  destruct (returns_mapM historical_row
              (fun t row => row_timestamp row = t /\ row_in_bounds row)
              (pd_date_range (clock w - timedelta_hours hours) (clock w)
                             (timedelta_minutes 15))
              (fun x s => historical_row_returns x s) w)
    as (rows & w' & Hrun & Hrows).
  exists rows, w'. split; [done|]. split.
  - rewrite <- (Forall2_length _ _ _ Hrows). apply pd_date_range_hours.
  - by apply rows_of_timestamps in Hrows as [_ ?].
Qed.

Lemma same_disk_refl (w : world) : same_disk w w.
Proof. done. Qed.

Lemma same_disk_trans (w1 w2 w3 : world) :
  same_disk w1 w2 -> same_disk w2 w3 -> same_disk w1 w3.
Proof. intros (? & ? & ?) (? & ? & ?). repeat split; congruence. Qed.

Lemma historical_row_frame (timestamp : datetime) (w : world) :
  returns (historical_row timestamp) w (fun _ w' => same_disk w w').
Proof.
  unfold historical_row. cbv beta zeta.
  do 13 run_step.
  destruct (bool_decide (hour timestamp ∈ [6; 18]%Z));
    destruct (bool_decide (hour timestamp ∈ [12; 13; 14]%Z));
    repeat run_step; done.
Qed.

(** X20. The two generators use the generator of numpy and nothing else
    of the world: after [get_current_readings] and after
    [generate_historical_data] the clock, the model file and the disk are as
    before. *)
Theorem X20_generators_frame :
  forall (last : R) (location : string) (w : world),
    returns (get_current_readings
               {| base_values := init_base_values; last_update := last |} location) w
            (fun _ w' => same_disk w w')
    /\ returns (generate_historical_data HistoricalDataGenerator_init) w
               (fun _ w' => same_disk w w').
Proof.
  intros last location w. split.
  - unfold get_current_readings. repeat run_step. done.
  - unfold generate_historical_data. do 2 run_step.
    destruct (returns_mapM_inv historical_row (fun _ _ => True) (same_disk w)
                (pd_date_range
                   (clock w - timedelta_hours (hours_back HistoricalDataGenerator_init))
                   (clock w) (timedelta_minutes 15))) with (s := w)
      as (rows & w' & Hrun & _ & Hframe); [|done|].
    + intros t s Hs. destruct (historical_row_frame t s) as (row & s' & Hr & Hf).
      exists row, s'. split; [done|]. split; [done|].
      by eapply same_disk_trans.
    + by exists rows, w'.
Qed.

(** ** Further properties of loading, and one refresh *)

(** X21. When the file holds a pickled model, [load_model] installs that
    model and returns; it does not train, and the generator, the file and the
    rest of the world are as before, also on a disk that cannot be
    written. *)
Theorem X21_load_model_reads_file :
  forall (self : MossHealthPredictor) (w : world) (c : classifier),
    load_model (self, set_model_pkl (FilePickled c) w)
    = (Ret tt, ({| model := Some c; labels := labels self |},
                set_model_pkl (FilePickled c) w)).
Proof. done. Qed.

Lemma load_model_failure_run (self : MossHealthPredictor) (w : world) :
  is_load_failure (model_pkl w) ->
  load_model (self, w)
  = (if disk_writable w then Ret tt else Raise OSError,
     ({| model := Some fallback_model; labels := labels self |},
      if disk_writable w
      then set_model_pkl (FilePickled fallback_model)
                         (set_np_random (snd fallback_training) w)
      else set_np_random (snd fallback_training) w)).
Proof.
  intros Hf. by rewrite load_model_failure, create_fallback_model_run.
Qed.

(** X22. The model that fallback training saves is the model that the next
    load finds: after a failed load on a disk that can be written, a second
    [load_model], of any predictor, returns with the same fallback model and
    changes nothing in the world. *)
Theorem X22_saved_model_is_reloaded :
  forall (self1 self2 : MossHealthPredictor) (w : world),
    is_load_failure (model_pkl w) ->
    disk_writable w = true ->
    load_model (self2, snd (snd (load_model (self1, w))))
    = (Ret tt, ({| model := Some fallback_model; labels := labels self2 |},
                snd (snd (load_model (self1, w))))).
Proof.
  intros self1 self2 w Hf Hw. rewrite (load_model_failure_run self1 w Hf), Hw.
  done.
Qed.

(** X23. Fallback training seeds the generator of numpy, which the
    simulator shares: after a failed load the generator is in the state that
    the training leaves, whatever it was before, so that the next reading is
    the same from any two worlds with the same clock. *)
Theorem X23_fallback_training_reseeds :
  forall (self1 self2 : MossHealthPredictor) (w1 w2 : world)
         (sim : SensorSimulator) (location : string),
    is_load_failure (model_pkl w1) ->
    is_load_failure (model_pkl w2) ->
    clock w1 = clock w2 ->
    np_random (snd (snd (load_model (self1, w1)))) = snd fallback_training
    /\ fst (get_current_readings sim location (snd (snd (load_model (self1, w1)))))
       = fst (get_current_readings sim location (snd (snd (load_model (self2, w2))))).
Proof.
  intros self1 self2 w1 w2 sim location Hf1 Hf2 Hclock.
  rewrite (load_model_failure_run self1 w1 Hf1), (load_model_failure_run self2 w2 Hf2).
  cbn [snd].
  assert (forall w, np_random
            (if disk_writable w
             then set_model_pkl (FilePickled fallback_model)
                                (set_np_random (snd fallback_training) w)
             else set_np_random (snd fallback_training) w)
          = snd fallback_training) as Hg.
  { intros w. by destruct (disk_writable w). }
  assert (forall w, clock
            (if disk_writable w
             then set_model_pkl (FilePickled fallback_model)
                                (set_np_random (snd fallback_training) w)
             else set_np_random (snd fallback_training) w)
          = clock w) as Hc.
  { intros w. by destruct (disk_writable w). }
  split; [apply Hg|].
  apply get_current_readings_respects. split; [by rewrite !Hg|by rewrite !Hc].
Qed.

Lemma predict_health_body_score self h l m label confidence score :
  predict_health_body self h l m = Ret (label, confidence, score) ->
  score = calculate_health_score h l m.
Proof.
  unfold predict_health_body. intros H.
  apply result_bind_Ret in H as (mdl & _ & H).
  apply result_bind_Ret in H as (predictions & _ & H).
  apply result_bind_Ret in H as (prediction & _ & H).
  apply result_bind_Ret in H as (conf & _ & H).
  apply result_bind_Ret in H as (lab & _ & H).
  by injection H as _ _ <-.
Qed.

Lemma predict_health_outcome (mdl : option classifier) (h l m : R) :
  exists label confidence score,
    predict_health (predictor_with mdl) h l m = Ret (label, confidence, score)
    /\ (label ∈ init_labels \/ (label, confidence, score) = sentinel)
    /\ 0 <= score <= 10.
Proof.
  unfold predict_health, try_except.
  destruct (predict_health_body (predictor_with mdl) h l m)
    as [[[label c] sc]|e] eqn:Hb.
  - exists label, c, sc. split; [done|]. split.
    + left. by apply predict_health_body_label in Hb.
    + apply predict_health_body_score in Hb as ->.
      unfold calculate_health_score. apply py_clamp_bounds. lra.
  - exists "Unknown"%string, 0, 0. split; [done|]. split; [by right|lra].
Qed.

Lemma get_recommendations_reading (label : string) (r : Reading) :
  exists recs,
    get_recommendations label (reading_dict r) = Ret recs
    /\ (3 <= length recs <= 4)%nat.
Proof.
  unfold get_recommendations, py_getitem.
  assert (reading_dict r !! "moisture"%string = Some (reading_moisture r)) as ->
    by reflexivity.
  assert (reading_dict r !! "light"%string = Some (reading_light r)) as ->
    by reflexivity.
  repeat case_decide; simpl; eexists; (split; [done|simpl; lia]).
Qed.

(** X24. One refresh of the dashboard never raises, whatever the model, the
    location and the draws: the reading of the simulator is within bounds
    and has the keys that the recommendations read, the classification is a
    label or the sentinel with a score in [0,10], and there are three or
    four recommendations. *)
Theorem X24_refresh_returns :
  forall (last : R) (mdl : option classifier) (location : string) (w : world),
    returns (refresh {| base_values := init_base_values; last_update := last |}
                     (predictor_with mdl) location) w
            (fun out _ => refresh_ok location out).
Proof.
  intros last mdl location w. unfold refresh.
  apply returns_bind.
  destruct (get_current_readings_returns
              {| base_values := init_base_values; last_update := last |}
              location w eq_refl) as (r & w' & Hrun & Hb & _ & Hloc).
  exists r, w'. split; [done|].
  destruct (predict_health_outcome mdl (reading_humidity r) (reading_light r)
              (reading_moisture r)) as (label & c & sc & Hp & Hlab & Hsc).
  apply returns_bind. eapply returns_lift; [exact Hp|].
  destruct (get_recommendations_reading label r) as (recs & Hrecs & Hlen).
  apply returns_bind. eapply returns_lift; [exact Hrecs|].
  apply returns_ret. unfold refresh_ok. done.
Qed.

End Engine.


(** ** The theorems at a concrete instance *)

Lemma C9_witness_same_seed :
  exists r : Reading,
    fst (seeded_sample unit zero_seed zero_draw zero_draw 7 "Building A - Lobby" 1
           (fresh_world unit tt)) = Ret r
    /\ fst (seeded_sample unit zero_seed zero_draw zero_draw 7 "Building A - Lobby" 2
              (read_only_world unit tt)) = Ret r.
Proof.
  apply (C9_sample_deterministic unit zero_seed zero_draw zero_draw 7
           "Building A - Lobby" 1 2 (fresh_world unit tt) (read_only_world unit tt)).
  reflexivity.
Defined.

Lemma C7_witness_missing_file :
  exists w' : world unit,
    load_model unit zero_seed zero_draw constant_fit
      (predictor_with None, fresh_world unit tt)
    = (Ret tt,
       ({| model := Some (fallback_model unit zero_seed zero_draw constant_fit);
           labels := init_labels |}, w'))
    /\ (true = true ->
        model_pkl unit w'
        = FilePickled (fallback_model unit zero_seed zero_draw constant_fit)).
Proof.
  apply (C7_load_failure_falls_back unit zero_seed zero_draw constant_fit
           (predictor_with None) (fresh_world unit tt)).
  exact I.
Defined.

(** With no model file and a disk that cannot be written, [load_model]
    raises: the error of the save is not contained. *)
Lemma C7_counterexample_read_only_disk :
  is_load_failure (model_pkl unit (read_only_world unit tt))
  /\ fst (load_model unit zero_seed zero_draw constant_fit
            (predictor_with None, read_only_world unit tt))
     = Raise OSError.
Proof.
  split; [exact I|].
  by rewrite load_model_failure, create_fallback_model_run.
Qed.

Lemma zero_draw_in_unit : sample_in_unit unit zero_draw.
Proof. intros g. simpl. lra. Qed.

Lemma low_randint_in_range : randint_in_range unit low_randint.
Proof. intros low high g Hlt. simpl. lia. Qed.

Lemma X15_witness_lobby :
  returns (get_current_readings unit zero_draw zero_draw
             {| base_values := init_base_values; last_update := 0 |}
             "Building A - Lobby")
          (fresh_world unit tt)
          (fun r _ => 6 / 7 <= reading_co2_absorption r < 25).
Proof.
  apply (X15_co2_absorption_range unit zero_draw zero_draw 0 "Building A - Lobby"
           (fresh_world unit tt)).
  exact zero_draw_in_unit.
Defined.

Lemma X17_witness_extremes :
  returns (simulate_sensor_failure unit zero_draw
             {| base_values := init_base_values; last_update := 0 |} "humidity" 0)
          (fresh_world unit tt)
          (fun status _ => status = SensorOk)
  /\ returns (simulate_sensor_failure unit zero_draw
                {| base_values := init_base_values; last_update := 0 |} "humidity" 1)
             (fresh_world unit tt)
             (fun status _ => status = SensorFailure).
Proof.
  split.
  - destruct (X17_sensor_failure_extremes unit zero_draw
                {| base_values := init_base_values; last_update := 0 |}
                "humidity" 0 (fresh_world unit tt) zero_draw_in_unit)
      as (status & w' & Hrun & Hok & _).
    exists status, w'. split; [exact Hrun|].
    destruct (Rle_dec 0 0) as [_|Hn]; [exact Hok|lra].
  - destruct (X17_sensor_failure_extremes unit zero_draw
                {| base_values := init_base_values; last_update := 0 |}
                "humidity" 1 (fresh_world unit tt) zero_draw_in_unit)
      as (status & w' & Hrun & _ & Hfail & _).
    exists status, w'. split; [exact Hrun|].
    destruct (Rle_dec 1 1) as [_|Hn]; [exact Hfail|lra].
Defined.

Lemma X18_witness_week :
  returns (generate_weekly_summary unit zero_draw low_randint eleven_hours
             HistoricalDataGenerator_init)
          (fresh_world unit tt)
          (fun rows _ =>
             Forall2 (fun (k : nat) row =>
                        weekly_row_ok (0 + time_before eleven_hours k)%Z (Z.of_nat k) row)
                     (seq 0 7) rows
             /\ length rows = 7%nat).
Proof.
  apply (X18_weekly_summary unit zero_draw low_randint eleven_hours
           HistoricalDataGenerator_init (fresh_world unit tt)).
  - exact zero_draw_in_unit.
  - exact low_randint_in_range.
Defined.

Lemma epoch_in_range : timestamp_in_range 0%Z.
Proof. unfold timestamp_in_range. lia. Qed.

Lemma two_days_before_epoch_in_range :
  timestamp_in_range (0 - timedelta_hours 48)%Z.
Proof. unfold timestamp_in_range, timedelta_hours. lia. Qed.

Lemma X19_witness_two_days :
  returns (generate_historical_data unit zero_draw zero_draw {| hours_back := 48 |})
          (fresh_world unit tt)
          (fun rows _ => length rows = 193%nat /\ Forall row_in_bounds rows).
Proof.
  apply (X19_historical_rows_per_hour unit zero_draw zero_draw 48
           (fresh_world unit tt)).
  - exact epoch_in_range.
  - exact two_days_before_epoch_in_range.
Defined.

Lemma X22_witness_second_start :
  load_model unit zero_seed zero_draw constant_fit
    (predictor_with None,
     snd (snd (load_model unit zero_seed zero_draw constant_fit
                 (predictor_with None, fresh_world unit tt))))
  = (Ret tt,
     ({| model := Some (fallback_model unit zero_seed zero_draw constant_fit);
         labels := labels (predictor_with None) |},
      snd (snd (load_model unit zero_seed zero_draw constant_fit
                  (predictor_with None, fresh_world unit tt))))).
Proof.
  apply (X22_saved_model_is_reloaded unit zero_seed zero_draw constant_fit
           (predictor_with None) (predictor_with None) (fresh_world unit tt)).
  - exact I.
  - reflexivity.
Defined.

Lemma X23_witness_two_disks :
  np_random unit
    (snd (snd (load_model unit zero_seed zero_draw constant_fit
                 (predictor_with None, fresh_world unit tt))))
  = snd (fallback_training unit zero_seed zero_draw constant_fit)
  /\ fst (get_current_readings unit zero_draw zero_draw
            {| base_values := init_base_values; last_update := 0 |} "Building A - Lobby"
            (snd (snd (load_model unit zero_seed zero_draw constant_fit
                         (predictor_with None, fresh_world unit tt)))))
     = fst (get_current_readings unit zero_draw zero_draw
              {| base_values := init_base_values; last_update := 0 |} "Building A - Lobby"
              (snd (snd (load_model unit zero_seed zero_draw constant_fit
                           (predictor_with None, read_only_world unit tt))))).
Proof.
  apply (X23_fallback_training_reseeds unit zero_seed zero_draw zero_draw constant_fit
           (predictor_with None) (predictor_with None)
           (fresh_world unit tt) (read_only_world unit tt)
           {| base_values := init_base_values; last_update := 0 |}
           "Building A - Lobby").
  - exact I.
  - exact I.
  - reflexivity.
Defined.
